(** * mcp-s3-server: a shallow embedding of [src/s3-server/server.py]

    The server is a thin bridge between a tool registry and a boto3 S3
    client.  The embedding keeps the shape of the Python module:

    - JSON argument values and keyword arguments are [value]s held in
      [gmap string value] dictionaries;
    - Python exceptions are an inductive type [exn], and an [except C]
      clause is the class test [isinstance];
    - a handler is a computation in the monad [py]: it threads the outside
      world (the storage service and the local file system) together with
      the log of calls issued to the boto3 client, and either returns a
      value or raises;
    - the boto3 client and [open] are not code of this module: they are the
      fields of a record [S3Client], over which every handler is generic.
      [Module KV] gives one concrete client, an in-memory key-value store
      with fault injection. *)

From Stdlib Require Import ZArith.
From stdpp Require Import base strings gmap list pretty.

Local Open Scope Z_scope.
Local Open Scope string_scope.
Local Open Scope list_scope.

(** ** Values, exceptions, results *)

(** JSON scalars as Python sees them after decoding. *)
Inductive value : Type :=
| VNone
| VBool (b : bool)
| VInt (z : Z)
| VStr (s : string).

#[global] Instance value_eq_dec : EqDecision value.
Proof. solve_decision. Defined.

Abbreviation dict := (gmap string value).
Abbreviation bytes := (list Byte.byte).

(** [str(v)], which is what an f-string placeholder [{v}] inserts. *)
Definition py_str (v : value) : string :=
  match v with
  | VNone => "None"
  | VBool true => "True"
  | VBool false => "False"
  | VInt z => pretty z
  | VStr s => s
  end.

(** [v is not None] *)
Definition is_not_None (v : value) : bool :=
  match v with VNone => false | _ => true end.

(** Truthiness of a value, as [all([...])] tests it. *)
Definition truthy (v : value) : bool :=
  match v with
  | VNone => false
  | VBool b => b
  | VInt z => negb (Z.eqb z 0)
  | VStr s => negb (String.eqb s "")
  end.

(** The exceptions that can cross this module.  [ClientError] is
    [botocore.exceptions.ClientError] with its [Error.Code]; [BotoCoreError]
    stands for the client-side botocore errors (connection failures,
    parameter validation), which are not [ClientError]s. *)
Inductive exn : Type :=
| ClientError (code : string)
| BotoCoreError (kind : string)
| RuntimeError (msg : string)
| ValueError (msg : string)
| KeyError (key : string)
| AttributeError (msg : string)
| TypeError (msg : string)
| OSError (msg : string).

#[global] Instance exn_eq_dec : EqDecision exn.
Proof. solve_decision. Defined.

(** The two classes named by the [except] clauses of the module. *)
Inductive exn_class : Type := ClientErrorC | RuntimeErrorC.

Definition isinstance (e : exn) (c : exn_class) : bool :=
  match c, e with
  | ClientErrorC, ClientError _ => true
  | RuntimeErrorC, RuntimeError _ => true
  | _, _ => false
  end.

Arguments isinstance : simpl never.

Inductive result (A : Type) : Type :=
| Ok (a : A)
| Raise (e : exn).
Arguments Ok {A} a.
Arguments Raise {A} e.

(** ** The boto3 client and the local file system *)

Inductive client_op : Type :=
| op_list_buckets | op_head_bucket | op_create_bucket | op_delete_bucket
| op_list_objects_v2 | op_get_object | op_put_object | op_delete_object
| op_head_object.

#[global] Instance client_op_eq_dec : EqDecision client_op.
Proof. solve_decision. Defined.

(** One call issued to the client: the method, its keyword arguments, and
    for [put_object] the content of the file object passed as [Body]. *)
Record call : Type := Call {
  op : client_op;
  kwargs : dict;
  body : option bytes
}.

(** Response dictionaries, reduced to the keys the handlers read.  A key
    read with a subscript is a plain field, except ['Contents'], which S3
    leaves out of a listing with no object; a key read with [.get(k, d)] is
    an [option]. *)
Record Bucket : Type := { Name : string }.
Record ListBucketsOutput : Type := { Buckets : list Bucket }.
Record Object : Type := { Key : option value; VersionId : option value }.
Record ListObjectsV2Output : Type := { Contents : option (list Object) }.
Record HeadObjectOutput : Type := {
  ContentType : option value;
  ContentLength : option value;
  LastModified : option value
}.

(** The collaborators of the module over a world [W]: the boto3 client, the
    local file system, and the url validation of [mcp.types.Resource].
    Each operation may change the world and either returns or raises.

    - [get_object] returns the response, of which the handler uses
      [response['Body']], a stream that is still to be read;
      [body_read] is [response['Body'].read()].
    - [open_rb] is [open(path, 'rb')]; the file object it yields is
      represented by the content the client reads from it, and a failure
      while reading arises inside [put_object], which is handed the file.
    - [open_wb] is [open(path, 'wb')], which creates or truncates the file;
      [file_write] is [f.write(data)] followed by [f.close()].
    - [any_url] is the validation [Resource] applies to its [uri]: it
      returns the url as the resource holds it, or raises. *)
Record S3Client (W : Type) : Type := MkS3Client {
  StreamingBody : Type;
  list_buckets : W → result ListBucketsOutput * W;
  head_bucket : dict → W → result () * W;
  create_bucket : dict → W → result () * W;
  delete_bucket : dict → W → result () * W;
  list_objects_v2 : dict → W → result ListObjectsV2Output * W;
  get_object : dict → W → result StreamingBody * W;
  body_read : StreamingBody → W → result bytes * W;
  put_object : dict → bytes → W → result () * W;
  delete_object : dict → W → result () * W;
  head_object : dict → W → result HeadObjectOutput * W;
  open_rb : value → W → result bytes * W;
  open_wb : value → W → result () * W;
  file_write : value → bytes → W → result () * W;
  any_url : string → result string
}.
Arguments MkS3Client {W}.
Arguments StreamingBody {W} _.
Arguments list_buckets {W} _ _.
Arguments head_bucket {W} _ _ _.
Arguments create_bucket {W} _ _ _.
Arguments delete_bucket {W} _ _ _.
Arguments list_objects_v2 {W} _ _ _.
Arguments get_object {W} _ _ _.
Arguments body_read {W} _ _ _.
Arguments put_object {W} _ _ _ _.
Arguments delete_object {W} _ _ _.
Arguments head_object {W} _ _ _.
Arguments open_rb {W} _ _ _.
Arguments open_wb {W} _ _ _.
Arguments file_write {W} _ _ _ _.
Arguments any_url {W} _ _.

(** ** The monad of handlers *)

Record state (W : Type) : Type := State {
  world : W;
  calls : list call
}.
Arguments State {W} world calls.
Arguments world {W} _.
Arguments calls {W} _.

Definition py (W A : Type) : Type := state W → result A * state W.

#[global] Instance py_ret {W} : MRet (py W) :=
  λ A a s, (Ok a, s).

#[global] Instance py_bind {W} : MBind (py W) :=
  λ A B f m s,
    match m s with
    | (Ok a, s') => f a s'
    | (Raise e, s') => (Raise e, s')
    end.

Definition raise {W A} (e : exn) : py W A := λ s, (Raise e, s).

(** [try: body except C: handler] *)
Definition try_except {W A} (body : py W A) (C : exn_class) (handler : py W A)
  : py W A :=
  λ s,
    match body s with
    | (Ok a, s') => (Ok a, s')
    | (Raise e, s') => if isinstance e C then handler s' else (Raise e, s')
    end.

(** A call to the client: it is logged, then run on the world. *)
Definition client_call {W A} (c : call) (f : W → result A * W) : py W A :=
  λ s,
    let '(r, w) := f (world s) in
    (r, State w (calls s ++ [c])).

(** An operation on a local file or on a response stream: it runs on the
    world and is not a client call. *)
Definition file_op {W A} (f : W → result A * W) : py W A :=
  λ s,
    let '(r, w) := f (world s) in
    (r, State w (calls s)).

(** A computation without effect on the state: it returns or raises. *)
Definition lift {W A} (r : result A) : py W A := λ s, (r, s).

(** [out = []] followed by [for x in l: out.append(f(x))]: the loop stops at
    the first [f(x)] that raises. *)
Fixpoint for_append {W A B} (f : A → py W B) (l : list A) : py W (list B) :=
  match l with
  | [] => mret []
  | x :: l => y ← f x; ys ← for_append f l; mret (y :: ys)
  end.

(** [d.get(k, default)] and [d.get(k)] on a dictionary. *)
Definition dict_get_default (d : dict) (k : string) (default : value) : value :=
  match d !! k with
  | Some v => v
  | None => default
  end.

Definition dict_get (d : dict) (k : string) : value :=
  dict_get_default d k VNone.

(** [args.get(k, default)] and [args.get(k)] on [args : Dict | None]. *)
Definition args_get_default {W} (args : option dict) (k : string) (default : value)
  : py W value :=
  match args with
  | None => raise (AttributeError "'NoneType' object has no attribute 'get'")
  | Some d => mret (dict_get_default d k default)
  end.

Definition args_get {W} (args : option dict) (k : string) : py W value :=
  args_get_default args k VNone.

(** ** Protocol types ([mcp.types]) *)

Record TextContent : Type := {
  type : string;
  text : string
}.

Module Resource.
Record t : Type := {
  uri : string;
  name : string;
  mimeType : string;
  description : string
}.
End Resource.

Module Tool.
(** One entry of ["properties"] in an input schema. *)
Record property : Type := {
  prop_name : string;
  prop_type : string;
  prop_description : string
}.
(** [inputSchema]; a schema without a ["required"] key has [required = []]. *)
Record schema : Type := {
  properties : list property;
  required : list string
}.
Record t : Type := {
  name : string;
  description : string;
  inputSchema : schema
}.
End Tool.

(** ** Startup: [load_config], [init_client], [main] *)

(** [os.getenv(k)] and [os.getenv(k, default)] over [os.environ]. *)
Definition os_getenv (environ : gmap string string) (k : string) : value :=
  match environ !! k with
  | Some s => VStr s
  | None => VNone
  end.

Definition os_getenv_default (environ : gmap string string) (k default : string)
  : value :=
  match environ !! k with
  | Some s => VStr s
  | None => VStr default
  end.

Definition load_config (environ : gmap string string) : result dict :=
  let config : dict :=
    {[ "endpoint" := os_getenv environ "ENDPOINT";
       "access_key_id" := os_getenv environ "ACCESS_KEY_ID";
       "access_key-secret" := os_getenv environ "ACCESS_KEY_SECRET";
       "region_name" := os_getenv_default environ "REGION_NAME" "us-east-1" ]} in
  if negb (forallb truthy [dict_get config "endpoint";
                           dict_get config "access_key_id";
                           dict_get config "access_key-secret"])
  then Raise (ValueError "Missing required configuration")
  else Ok config.

(** The arguments of one call [boto3.client(service, **kwargs)]. *)
Record ClientArgs : Type := {
  service_name : string;
  client_kwargs : dict
}.

(** The module-level state of startup over the type [C] of client objects:
    the global [client], and every call of [boto3.client] made so far. *)
Record globals (C : Type) : Type := Globals {
  client_global : option C;
  constructed : list ClientArgs
}.
Arguments Globals {C} _ _.
Arguments client_global {C} _.
Arguments constructed {C} _.

(** [boto3.client] is not code of this module: it validates its arguments
    and either returns a client or raises.  [init_client] calls it
    unguarded. *)
Definition init_client {C} (boto3_client : ClientArgs → result C)
    (environ : gmap string string) (g : globals C) : result () * globals C :=
  match load_config environ with
  | Raise e => (Raise e, g)
  | Ok config =>
      let a := {| service_name := "s3";
                  client_kwargs :=
                    {[ "endpoint_url" := dict_get config "endpoint";
                       "aws_access_key_id" := dict_get config "access_key_id";
                       "aws_secret_access_key" := dict_get config "access_key-secret";
                       "region_name" := dict_get config "region_name" ]} |} in
      match boto3_client a with
      | Ok c => (Ok (), Globals (Some c) (constructed g ++ [a]))
      | Raise e => (Raise e, Globals (client_global g) (constructed g ++ [a]))
      end
  end.

(** [main]: the server loop, in which tools are invocable, is entered only
    after [init_client] has returned. *)
Inductive process (C : Type) : Type :=
| Serving (g : globals C)
| Died (e : exn) (g : globals C).
Arguments Serving {C} _.
Arguments Died {C} _ _.

Definition main {C} (boto3_client : ClientArgs → result C)
    (environ : gmap string string) : process C :=
  match init_client boto3_client environ (Globals None []) with
  | (Ok _, g) => Serving g
  | (Raise e, g) => Died e g
  end.

(** ** Resource listing and the tool handlers *)

Definition text_content (s : string) : TextContent :=
  {| type := "text"; text := s |}.

(** [kwargs[k] = v] guarded by [if v is not None]. *)
Definition set_if_not_None (k : string) (v : value) (kw : dict) : dict :=
  if is_not_None v then <[k := v]> kw else kw.

(** [d.get(k, default)] on a response entry read into an f-string. *)
Definition get_or (o : option value) (default : string) : string :=
  match o with
  | Some v => py_str v
  | None => default
  end.

(** The base class: one method. *)
Record ToolHandler (W : Type) : Type := {
  handle : string → option dict → py W (list TextContent)
}.
Arguments handle {W} _ _ _.

Section Handlers.
Context {W : Type} (client : S3Client W).

Definition client_list_buckets : py W ListBucketsOutput :=
  client_call (Call op_list_buckets ∅ None) (list_buckets client).
Definition client_head_bucket (kw : dict) : py W () :=
  client_call (Call op_head_bucket kw None) (head_bucket client kw).
Definition client_create_bucket (kw : dict) : py W () :=
  client_call (Call op_create_bucket kw None) (create_bucket client kw).
Definition client_delete_bucket (kw : dict) : py W () :=
  client_call (Call op_delete_bucket kw None) (delete_bucket client kw).
Definition client_list_objects_v2 (kw : dict) : py W ListObjectsV2Output :=
  client_call (Call op_list_objects_v2 kw None) (list_objects_v2 client kw).
Definition client_get_object (kw : dict) : py W (StreamingBody client) :=
  client_call (Call op_get_object kw None) (get_object client kw).
Definition client_put_object (kw : dict) (f : bytes) : py W () :=
  client_call (Call op_put_object kw (Some f)) (put_object client kw f).
Definition client_delete_object (kw : dict) : py W () :=
  client_call (Call op_delete_object kw None) (delete_object client kw).
Definition client_head_object (kw : dict) : py W HeadObjectOutput :=
  client_call (Call op_head_object kw None) (head_object client kw).

(** [Resource(uri=..., name=..., mimeType=..., description=...)]: the
    constructor validates the uri. *)
Definition make_resource (uri name mimeType description : string)
  : py W Resource.t :=
  u ← lift (any_url client uri);
  mret {| Resource.uri := u; Resource.name := name;
          Resource.mimeType := mimeType;
          Resource.description := description |}.

Definition list_resources : py W (list Resource.t) :=
  try_except
    (buckets ← client_list_buckets;
     for_append
       (λ bucket,
          make_resource ("s3://" +:+ Name bucket) ("Bucket: " +:+ Name bucket)
            "text/plain" ("Data in bucket: " +:+ Name bucket))
       (Buckets buckets))
    RuntimeErrorC
    (mret []).

Definition ListBucketsHandler : ToolHandler W := {|
  handle name args :=
    try_except
      (buckets ← client_list_buckets;
       mret ((λ bucket, text_content ("Bucket: " +:+ Name bucket))
               <$> Buckets buckets))
      RuntimeErrorC
      (mret [text_content "Failed to list buckets"])
|}.

Definition ExistsBucketHandler : ToolHandler W := {|
  handle name args :=
    bucket_name ← args_get args "bucket_name";
    try_except
      (_ ← client_head_bucket {[ "Bucket" := bucket_name ]};
       mret [text_content ("Bucket " +:+ py_str bucket_name +:+ " exists")])
      ClientErrorC
      (mret [text_content ("Bucket " +:+ py_str bucket_name +:+ " not exists")])
|}.

Definition CreateBucketHandler : ToolHandler W := {|
  handle name args :=
    try_except
      (bucket_name ← args_get args "bucket_name";
       _ ← client_create_bucket {[ "Bucket" := bucket_name ]};
       mret [text_content
               ("Bucket " +:+ py_str bucket_name +:+ " created successfully")])
      RuntimeErrorC
      (mret [text_content "Failed to create bucket"])
|}.

Definition DeleteBucketHandler : ToolHandler W := {|
  handle name args :=
    try_except
      (bucket_name ← args_get args "bucket_name";
       _ ← client_delete_bucket {[ "Bucket" := bucket_name ]};
       mret [text_content
               ("Bucket " +:+ py_str bucket_name +:+ " deleted successfully")])
      RuntimeErrorC
      (mret [text_content "Failed to delete bucket"])
|}.

(** The keyword arguments [ListObjectsHandler] builds from its arguments. *)
Definition list_objects_kwargs
    (bucket_name prefix delimiter max_keys continuation_token start_after : value)
  : dict :=
  let kwargs : dict := {[ "Bucket" := bucket_name ]} in
  let kwargs := set_if_not_None "Prefix" prefix kwargs in
  let kwargs := set_if_not_None "Delimiter" delimiter kwargs in
  let kwargs := set_if_not_None "MaxKeys" max_keys kwargs in
  let kwargs := set_if_not_None "ContinuationToken" continuation_token kwargs in
  let kwargs := set_if_not_None "StartAfter" start_after kwargs in
  kwargs.

Definition ListObjectsHandler : ToolHandler W := {|
  handle name args :=
    try_except
      (bucket_name ← args_get args "bucket_name";
       prefix ← args_get args "prefix";
       delimiter ← args_get args "delimiter";
       max_keys ← args_get_default args "max_keys" (VInt 1000);
       continuation_token ← args_get args "continuation_token";
       start_after ← args_get args "start_after";
       response ← client_list_objects_v2
                    (list_objects_kwargs bucket_name prefix delimiter max_keys
                       continuation_token start_after);
       contents ← match Contents response with
                  | Some objs => mret objs
                  | None => raise (KeyError "Contents")
                  end;
       mret ((λ obj,
                text_content
                  ("Object[key=" +:+ get_or (Key obj) "null"
                   +:+ ", version_id=" +:+ get_or (VersionId obj) "null"
                   +:+ "]"))
               <$> contents))
      ClientErrorC
      (mret [text_content "Failed to list objects"])
|}.

(** [{'Bucket': bucket_name, 'Key': key}], with ['VersionId'] added when
    [version_id is not None]. *)
Definition object_kwargs (bucket_name key version_id : value) : dict :=
  let kwargs : dict := {[ "Bucket" := bucket_name; "Key" := key ]} in
  set_if_not_None "VersionId" version_id kwargs.

Definition GetObjectHandler : ToolHandler W := {|
  handle name args :=
    try_except
      (bucket_name ← args_get args "bucket_name";
       key ← args_get args "key";
       version_id ← args_get args "version_id";
       path ← args_get args "path";
       response ← client_get_object (object_kwargs bucket_name key version_id);
       _ ← file_op (open_wb client path);
       data ← file_op (body_read client response);
       _ ← file_op (file_write client path data);
       mret [text_content ("Object " +:+ py_str key +:+ " saved successfully")])
      ClientErrorC
      (mret [text_content "Failed to get object"])
|}.

Definition PutObjectHandler : ToolHandler W := {|
  handle name args :=
    try_except
      (bucket_name ← args_get args "bucket_name";
       key ← args_get args "key";
       path ← args_get args "path";
       f ← file_op (open_rb client path);
       _ ← client_put_object {[ "Bucket" := bucket_name; "Key" := key ]} f;
       mret [text_content ("Object " +:+ py_str key +:+ " saved successfully")])
      ClientErrorC
      (mret [text_content "Failed to put object"])
|}.

Definition DeleteObjectHandler : ToolHandler W := {|
  handle name args :=
    try_except
      (bucket_name ← args_get args "bucket_name";
       key ← args_get args "key";
       version_id ← args_get args "version_id";
       _ ← client_delete_object (object_kwargs bucket_name key version_id);
       mret [text_content ("Object " +:+ py_str key +:+ " deleted successfully")])
      ClientErrorC
      (mret [text_content "Failed to delete object"])
|}.

Definition GetObjectMetadataHandler : ToolHandler W := {|
  handle name args :=
    try_except
      (bucket_name ← args_get args "bucket_name";
       key ← args_get args "key";
       version_id ← args_get args "version_id";
       obj ← client_head_object (object_kwargs bucket_name key version_id);
       mret [text_content
               ("Metadata[content_type=" +:+ get_or (ContentType obj) ""
                +:+ ", content_length=" +:+ get_or (ContentLength obj) ""
                +:+ ",last_modified=" +:+ get_or (LastModified obj) ""
                +:+ "]")])
      ClientErrorC
      (mret [text_content "Failed to get object metadata"])
|}.

(** The registry, in the order of the dictionary display. *)
Definition tool_handlers_items : list (string * ToolHandler W) :=
  [ ("list-buckets", ListBucketsHandler);
    ("create-bucket", CreateBucketHandler);
    ("delete-bucket", DeleteBucketHandler);
    ("exists-bucket", ExistsBucketHandler);
    ("list-objects", ListObjectsHandler);
    ("get-object", GetObjectHandler);
    ("put-object", PutObjectHandler);
    ("delete-object", DeleteObjectHandler);
    ("get-object-metadata", GetObjectMetadataHandler) ].

Definition tool_handlers : gmap string (ToolHandler W) :=
  list_to_map tool_handlers_items.

Definition handle_call_tool (name : string) (args : option dict)
  : py W (list TextContent) :=
  match tool_handlers !! name with
  | Some h => handle h name args
  | None => raise (ValueError ("Unknown tool: " +:+ name))
  end.

End Handlers.

(** ** The tool catalog ([handle_list_tools]) *)

Definition string_property (n d : string) : Tool.property :=
  {| Tool.prop_name := n; Tool.prop_type := "string"; Tool.prop_description := d |}.

Definition integer_property (n d : string) : Tool.property :=
  {| Tool.prop_name := n; Tool.prop_type := "integer"; Tool.prop_description := d |}.

Definition handle_list_tools : list Tool.t :=
  [ {| Tool.name := "list-buckets";
       Tool.description := "List all buckets with permissions in the object storage";
       Tool.inputSchema := {| Tool.properties := []; Tool.required := [] |} |};
    {| Tool.name := "exists-bucket";
       Tool.description := "Check if a bucket exists";
       Tool.inputSchema :=
         {| Tool.properties :=
              [ string_property "bucket_name" "The name of the bucket to check" ];
            Tool.required := ["bucket_name"] |} |};
    {| Tool.name := "create-bucket";
       Tool.description := "Create a new bucket with permissions in the object storage";
       Tool.inputSchema :=
         {| Tool.properties :=
              [ string_property "bucket_name" "The name of the bucket to create" ];
            Tool.required := ["bucket_name"] |} |};
    {| Tool.name := "delete-bucket";
       Tool.description := "Delete a bucket with permissions in the object storage";
       Tool.inputSchema :=
         {| Tool.properties :=
              [ string_property "bucket_name" "The name of the bucket to delete" ];
            Tool.required := ["bucket_name"] |} |};
    {| Tool.name := "list-objects";
       Tool.description := "List all objects in a bucket";
       Tool.inputSchema :=
         {| Tool.properties :=
              [ string_property "bucket_name"
                  "The name of the bucket to list objects from";
                string_property "prefix" "The prefix to filter objects by";
                string_property "delimiter"
                  "The delimiter to use when listing objects";
                integer_property "max_keys" "The maximum number of keys to return";
                string_property "continuation_token"
                  "The continuation token to use when listing objects";
                string_property "start_after"
                  "The key to start listing objects after" ];
            Tool.required := ["bucket_name"] |} |};
    {| Tool.name := "get-object";
       Tool.description := "Get an object from a bucket";
       Tool.inputSchema :=
         {| Tool.properties :=
              [ string_property "bucket_name"
                  "The name of the bucket to get the object from";
                string_property "key" "The key of the object to get";
                string_property "version_id" "The version ID of the object to get";
                string_property "path" "The path to save the object to" ];
            Tool.required := ["bucket_name"; "key"; "path"] |} |};
    {| Tool.name := "put-object";
       Tool.description := "Put an object into a bucket";
       Tool.inputSchema :=
         {| Tool.properties :=
              [ string_property "bucket_name"
                  "The name of the bucket to put the object into";
                string_property "key" "The key of the object to put";
                string_property "path" "The path to the object to put" ];
            Tool.required := ["bucket_name"; "key"; "path"] |} |};
    {| Tool.name := "delete-object";
       Tool.description := "Delete an object from a bucket";
       Tool.inputSchema :=
         {| Tool.properties :=
              [ string_property "bucket_name"
                  "The name of the bucket to delete the object from";
                string_property "key" "The key of the object to delete";
                string_property "version_id"
                  "The version ID of the object to delete" ];
            Tool.required := ["bucket_name"; "key"] |} |};
    {| Tool.name := "get-object-metadata";
       Tool.description := "Get object metadata from a bucket";
       Tool.inputSchema :=
         {| Tool.properties :=
              [ string_property "bucket_name"
                  "The name of the bucket to get the object metadata from";
                string_property "key" "The key of the object to get metadata for";
                string_property "version_id"
                  "The version ID of the object to get metadata for" ];
            Tool.required := ["bucket_name"; "key"] |} |} ].

(** The names a caller can discover, and the arguments a descriptor declares
    required. *)
Definition tool_names : list string := Tool.name <$> handle_list_tools.

Definition required_args (tool : string) : list string :=
  match filter (λ t, Tool.name t = tool) handle_list_tools with
  | t :: _ => Tool.required (Tool.inputSchema t)
  | [] => []
  end.

(** ** A key-value model of the storage backend

    One concrete [S3Client]: buckets are finite maps from keys to bodies,
    the local file system is a finite map from paths to contents, and
    [fault] injects a failure into every request that reaches the service.
    Keyword arguments are validated as boto3 validates them, before any
    request is sent. *)

#[global] Instance result_ret : MRet result := λ A a, Ok a.

#[global] Instance result_bind : MBind result :=
  λ A B f r,
    match r with
    | Ok a => f a
    | Raise e => Raise e
    end.

Module KV.

Record world : Type := World {
  buckets : gmap string (gmap string bytes);
  files : gmap string bytes;
  fault : option exn
}.

(** A required string parameter. *)
Definition param_str (kw : dict) (k : string) : result string :=
  match kw !! k with
  | Some (VStr s) => Ok s
  | _ => Raise (BotoCoreError "ParamValidationError")
  end.

(** An optional string parameter. *)
Definition param_opt_str (kw : dict) (k : string) : result (option string) :=
  match kw !! k with
  | None => Ok None
  | Some (VStr s) => Ok (Some s)
  | Some _ => Raise (BotoCoreError "ParamValidationError")
  end.

(** An optional integer parameter. *)
Definition param_opt_int (kw : dict) (k : string) : result (option Z) :=
  match kw !! k with
  | None => Ok None
  | Some (VInt n) => Ok (Some n)
  | Some _ => Raise (BotoCoreError "ParamValidationError")
  end.

(** The request reaches the service unless a fault is injected. *)
Definition send (w : world) : result () :=
  match fault w with
  | Some e => Raise e
  | None => Ok ()
  end.

Definition the_bucket (w : world) (b : string) (missing : string)
  : result (gmap string bytes) :=
  match buckets w !! b with
  | Some objs => Ok objs
  | None => Raise (ClientError missing)
  end.

(** The store is unversioned: the only version of an object is ["null"]. *)
Definition the_version (v : option string) : result () :=
  match v with
  | None => Ok ()
  | Some s => if String.eqb s "null" then Ok () else Raise (ClientError "NoSuchVersion")
  end.

Definition set_bucket (w : world) (b : string) (objs : gmap string bytes) : world :=
  World (<[b := objs]> (buckets w)) (files w) (fault w).

(** Run a request that does not change the world. *)
Definition query {A} (w : world) (r : result A) : result A * world := (r, w).

(** Run a request that yields the next world. *)
Definition update (w : world) (r : result world) : result () * world :=
  match r with
  | Ok w' => (Ok (), w')
  | Raise e => (Raise e, w)
  end.

Definition list_buckets (w : world) : result ListBucketsOutput * world :=
  query w
    (_ ← send w;
     mret {| Buckets := (λ kv, {| Name := kv.1 |}) <$> map_to_list (buckets w) |}).

Definition head_bucket (kw : dict) (w : world) : result () * world :=
  query w
    (b ← param_str kw "Bucket";
     _ ← send w;
     _ ← the_bucket w b "404";
     mret ()).

Definition create_bucket (kw : dict) (w : world) : result () * world :=
  update w
    (b ← param_str kw "Bucket";
     _ ← send w;
     match buckets w !! b with
     | Some _ => Raise (ClientError "BucketAlreadyOwnedByYou")
     | None => mret (set_bucket w b ∅)
     end).

Definition delete_bucket (kw : dict) (w : world) : result () * world :=
  update w
    (b ← param_str kw "Bucket";
     _ ← send w;
     objs ← the_bucket w b "NoSuchBucket";
     if decide (size objs = 0%nat)
     then mret (World (delete b (buckets w)) (files w) (fault w))
     else Raise (ClientError "BucketNotEmpty")).

(** One page of a listing: the keys with the prefix, at most [MaxKeys] of
    them.  Delimiters and cursors are not implemented by this store. *)
Definition list_objects_v2 (kw : dict) (w : world)
  : result ListObjectsV2Output * world :=
  query w
    (b ← param_str kw "Bucket";
     prefix ← param_opt_str kw "Prefix";
     max_keys ← param_opt_int kw "MaxKeys";
     delimiter ← param_opt_str kw "Delimiter";
     token ← param_opt_str kw "ContinuationToken";
     start_after ← param_opt_str kw "StartAfter";
     _ ← send w;
     objs ← the_bucket w b "NoSuchBucket";
     match delimiter, token, start_after with
     | None, None, None =>
         let keys := (map_to_list objs).*1 in
         let keys := filter (λ k, String.prefix (default "" prefix) k = true) keys in
         let keys := take (Z.to_nat (default 1000 max_keys)) keys in
         mret {| Contents :=
                   match keys with
                   | [] => None
                   | _ => Some ((λ k, {| Key := Some (VStr k); VersionId := None |})
                                  <$> keys)
                   end |}
     | _, _, _ => Raise (ClientError "NotImplemented")
     end).

Definition get_object (kw : dict) (w : world) : result bytes * world :=
  query w
    (b ← param_str kw "Bucket";
     k ← param_str kw "Key";
     v ← param_opt_str kw "VersionId";
     _ ← send w;
     objs ← the_bucket w b "NoSuchBucket";
     _ ← the_version v;
     match objs !! k with
     | Some data => mret data
     | None => Raise (ClientError "NoSuchKey")
     end).

Definition put_object (kw : dict) (data : bytes) (w : world) : result () * world :=
  update w
    (b ← param_str kw "Bucket";
     k ← param_str kw "Key";
     _ ← send w;
     objs ← the_bucket w b "NoSuchBucket";
     mret (set_bucket w b (<[k := data]> objs))).

Definition delete_object (kw : dict) (w : world) : result () * world :=
  update w
    (b ← param_str kw "Bucket";
     k ← param_str kw "Key";
     v ← param_opt_str kw "VersionId";
     _ ← send w;
     objs ← the_bucket w b "NoSuchBucket";
     _ ← the_version v;
     mret (set_bucket w b (delete k objs))).

Definition head_object (kw : dict) (w : world) : result HeadObjectOutput * world :=
  query w
    (b ← param_str kw "Bucket";
     k ← param_str kw "Key";
     v ← param_opt_str kw "VersionId";
     _ ← send w;
     objs ← the_bucket w b "404";
     _ ← the_version v;
     match objs !! k with
     | Some data =>
         mret {| ContentType := Some (VStr "binary/octet-stream");
                 ContentLength := Some (VInt (Z.of_nat (length data)));
                 LastModified := None |}
     | None => Raise (ClientError "404")
     end).

(** [open(path, 'rb')]: a string names a file; an integer is a file
    descriptor, none of which is open here; [None] is no path at all. *)
Definition open_rb (path : value) (w : world) : result bytes * world :=
  query w
    match path with
    | VStr p =>
        match files w !! p with
        | Some data => Ok data
        | None => Raise (OSError "FileNotFoundError")
        end
    | VNone => Raise (TypeError "expected str, bytes or os.PathLike object, not NoneType")
    | VInt _ | VBool _ => Raise (OSError "Bad file descriptor")
    end.

(** [open(path, 'wb')] creates the file or truncates it; the empty path
    names no file. *)
Definition open_wb (path : value) (w : world) : result () * world :=
  update w
    match path with
    | VStr p =>
        if String.eqb p ""
        then Raise (OSError "FileNotFoundError")
        else Ok (World (buckets w) (<[p := []]> (files w)) (fault w))
    | VNone => Raise (TypeError "expected str, bytes or os.PathLike object, not NoneType")
    | VInt _ | VBool _ => Raise (OSError "Bad file descriptor")
    end.

(** [f.write(data)] and [f.close()] on the file opened at [path]. *)
Definition file_write (path : value) (data : bytes) (w : world)
  : result () * world :=
  update w
    match path with
    | VStr p => Ok (World (buckets w) (<[p := data]> (files w)) (fault w))
    | _ => Raise (ValueError "I/O operation on closed file")
    end.

(** The body of a response is a stream over the stored bytes; reading it
    delivers them. *)
Definition body_read (body : bytes) (w : world) : result bytes * world :=
  (Ok body, w).

Fixpoint has_space (s : string) : bool :=
  match s with
  | EmptyString => false
  | String c s => if String.eqb (String c "") " " then true else has_space s
  end.

(** Url validation: a url with a space in it is refused, any other is kept
    as it is. *)
Definition any_url (uri : string) : result string :=
  if has_space uri then Raise (ValueError "ValidationError") else Ok uri.

Definition client : S3Client world :=
  MkS3Client bytes list_buckets head_bucket create_bucket delete_bucket
    list_objects_v2 get_object body_read put_object delete_object head_object
    open_rb open_wb file_write any_url.

(** Client construction as botocore validates it: the endpoint has to be an
    http or https url.  The client is represented by what it was built
    from. *)
Definition boto3_client (a : ClientArgs) : result ClientArgs :=
  match client_kwargs a !! "endpoint_url" with
  | Some (VStr e) =>
      if String.prefix "http://" e || String.prefix "https://" e
      then Ok a
      else Raise (ValueError ("Invalid endpoint: " +:+ e))
  | _ => Raise (ValueError "Invalid endpoint: None")
  end.

End KV.

(** ** Vocabulary of the statements *)

(** What [ListObjectsHandler] sends for a decoded argument mapping. *)
Definition list_objects_request (d : dict) : dict :=
  list_objects_kwargs
    (dict_get d "bucket_name") (dict_get d "prefix") (dict_get d "delimiter")
    (dict_get_default d "max_keys" (VInt 1000))
    (dict_get d "continuation_token") (dict_get d "start_after").

(** The value an argument contributes to the request: nothing when it is
    omitted, and nothing when it is null. *)
Definition passed (d : dict) (k : string) : option value :=
  match d !! k with
  | Some VNone | None => None
  | Some v => Some v
  end.

(** The optional arguments of list-objects with the keyword each becomes. *)
Definition list_objects_optionals : list (string * string) :=
  [ ("prefix", "Prefix"); ("delimiter", "Delimiter");
    ("continuation_token", "ContinuationToken"); ("start_after", "StartAfter") ].

(** What the object handlers send: get-object, delete-object and
    get-object-metadata, then put-object. *)
Definition object_request (d : dict) : dict :=
  object_kwargs (dict_get d "bucket_name") (dict_get d "key")
    (dict_get d "version_id").

Definition put_request (d : dict) : dict :=
  {[ "Bucket" := dict_get d "bucket_name"; "Key" := dict_get d "key" ]}.

(** The environment variables [load_config] requires, and what it takes for
    missing: a variable that is unset, or set to the empty string. *)
Definition required_env : list string :=
  ["ENDPOINT"; "ACCESS_KEY_ID"; "ACCESS_KEY_SECRET"].

Definition unset_or_empty (environ : gmap string string) (k : string) : Prop :=
  environ !! k = None ∨ environ !! k = Some "".

(** The three values [load_config] tests with [all]. *)
Definition required_values (environ : gmap string string) : list value :=
  [os_getenv environ "ENDPOINT"; os_getenv environ "ACCESS_KEY_ID";
   os_getenv environ "ACCESS_KEY_SECRET"].

(** The arguments [init_client] passes to [boto3.client] for a complete
    environment. *)
Definition configured_args (environ : gmap string string) : ClientArgs :=
  {| service_name := "s3";
     client_kwargs :=
       {[ "endpoint_url" := os_getenv environ "ENDPOINT";
          "aws_access_key_id" := os_getenv environ "ACCESS_KEY_ID";
          "aws_secret_access_key" := os_getenv environ "ACCESS_KEY_SECRET";
          "region_name" :=
            VStr (default "us-east-1" (environ !! "REGION_NAME")) ]} |}.

(** The argument mapping of a put-object or get-object invocation. *)
Definition object_args (b k path : string) : dict :=
  {[ "bucket_name" := VStr b; "key" := VStr k; "path" := VStr path ]}.

(** The text both handlers return on success. *)
Definition saved (k : string) : list TextContent :=
  [text_content ("Object " +:+ k +:+ " saved successfully")].

(** The client call of a put-object invocation on [object_args]. *)
Definition put_call (b k : string) (data : bytes) : call :=
  Call op_put_object {[ "Bucket" := VStr b; "Key" := VStr k ]} (Some data).

(** The body stored under a key of a bucket of the key-value store. *)
Definition object_body (w : KV.world) (b k : string) : option bytes :=
  KV.buckets w !! b ≫= λ objs, objs !! k.

(** A computation run [n] times in a row: its results and the last state. *)
Fixpoint iterate {W A} (m : py W A) (n : nat) (s : state W)
  : list (result A) * state W :=
  match n with
  | O => ([], s)
  | S n =>
      let '(r, s1) := m s in
      let '(rs, s2) := iterate m n s1 in
      (r :: rs, s2)
  end.

(** ** Concrete worlds and inputs *)

(** The three bytes [XYZ]. *)
Definition XYZ : bytes := [Byte.x58; Byte.x59; Byte.x5a].

(** One empty bucket [b] and a local file [/tmp/in] holding [XYZ]. *)
Definition sample_world : KV.world :=
  KV.World {[ "b" := ∅ ]} {[ "/tmp/in" := XYZ ]} None.

(** The same world with the object [k] of bucket [b] holding [XYZ]. *)
Definition stored_world : KV.world :=
  KV.World {[ "b" := {[ "k" := XYZ ]} ]} {[ "/tmp/in" := XYZ ]} None.

(** The same world behind credentials the service rejects: every request
    that reaches it fails with the [ClientError] [AccessDenied]. *)
Definition denied_world : KV.world :=
  KV.World {[ "b" := ∅ ]} {[ "/tmp/in" := XYZ ]}
    (Some (ClientError "AccessDenied")).

(** A state with an empty call log. *)
Definition start {W} (w : W) : state W := State w [].

(** [{"bucket_name": name}] *)
Definition bucket_args (name : string) : dict :=
  {[ "bucket_name" := VStr name ]}.

(** [{"bucket_name": "b", "prefix": null}] *)
Definition null_prefix_args : dict :=
  {[ "bucket_name" := VStr "b"; "prefix" := VNone ]}.

(** An environment with the three required variables set, and one in which
    [ENDPOINT] is set to the empty string. *)
Definition complete_environ : gmap string string :=
  {[ "ENDPOINT" := "http://localhost:9000"; "ACCESS_KEY_ID" := "id";
     "ACCESS_KEY_SECRET" := "secret" ]}.

Definition empty_endpoint_environ : gmap string string :=
  {[ "ENDPOINT" := ""; "ACCESS_KEY_ID" := "id"; "ACCESS_KEY_SECRET" := "secret" ]}.

(** An environment whose endpoint is set, but is no url. *)
Definition bad_endpoint_environ : gmap string string :=
  {[ "ENDPOINT" := "localhost:9000"; "ACCESS_KEY_ID" := "id";
     "ACCESS_KEY_SECRET" := "secret" ]}.

(** The names of the properties a tool's schema declares. *)
Definition declared_args (tool : string) : list string :=
  match filter (λ t, Tool.name t = tool) handle_list_tools with
  | t :: _ => Tool.prop_name <$> Tool.properties (Tool.inputSchema t)
  | [] => []
  end.

(** The descriptor the catalog holds under a name. *)
Definition descriptor (tool : string) : option Tool.t :=
  head (filter (λ t, Tool.name t = tool) handle_list_tools).

(** The world [sample_world] with the service unreachable: every request
    fails in the client with a connection error, which is no [ClientError]. *)
Definition offline_world : KV.world :=
  KV.World {[ "b" := ∅ ]} {[ "/tmp/in" := XYZ ]}
    (Some (BotoCoreError "EndpointConnectionError")).

(** The resource [list_resources] builds for a bucket whose uri the
    validation returned as [u]. *)
Definition bucket_resource (bucket : Bucket) (u : string) : Resource.t :=
  {| Resource.uri := u;
     Resource.name := "Bucket: " +:+ Name bucket;
     Resource.mimeType := "text/plain";
     Resource.description := "Data in bucket: " +:+ Name bucket |}.

(** A store whose one bucket has a space in its name. *)
Definition spaced_world : KV.world :=
  KV.World {[ "my bucket" := ∅ ]} ∅ None.

(** * Properties *)

(** Unfolding of the monad and of one handler call. *)
Ltac py_unfold :=
  unfold handle, list_resources,
    ListBucketsHandler, ExistsBucketHandler, CreateBucketHandler,
    DeleteBucketHandler, ListObjectsHandler, GetObjectHandler, PutObjectHandler,
    DeleteObjectHandler, GetObjectMetadataHandler,
    client_list_buckets, client_head_bucket, client_create_bucket,
    client_delete_bucket, client_list_objects_v2, client_get_object,
    client_put_object, client_delete_object, client_head_object,
    try_except, args_get, args_get_default, client_call, file_op, raise,
    mbind, py_bind, mret, py_ret;
  cbn beta iota.

Section Dispatch.
Context {W : Type} (client : S3Client W).

Lemma tool_handlers_keys :
  (tool_handlers_items client).*1 =
    ["list-buckets"; "create-bucket"; "delete-bucket"; "exists-bucket";
     "list-objects"; "get-object"; "put-object"; "delete-object";
     "get-object-metadata"].
Proof. reflexivity. Qed.

Lemma tool_handlers_NoDup : NoDup (tool_handlers_items client).*1.
Proof. rewrite tool_handlers_keys. by apply (bool_decide_unpack (NoDup _)). Qed.

Lemma tool_names_registered (name : string) :
  name ∈ tool_names ↔ name ∈ (tool_handlers_items client).*1.
Proof.
  rewrite tool_handlers_keys. unfold tool_names. cbn.
  rewrite !elem_of_cons, !elem_of_nil. tauto.
Qed.

Lemma tool_handlers_lookup (name : string) (h : ToolHandler W) :
  (name, h) ∈ tool_handlers_items client → tool_handlers client !! name = Some h.
Proof. apply elem_of_list_to_map_1, tool_handlers_NoDup. Qed.

Lemma tool_handlers_unknown (name : string) :
  name ∉ tool_names → tool_handlers client !! name = None.
Proof.
  intros Hn. apply not_elem_of_list_to_map_1.
  by rewrite <- tool_names_registered.
Qed.

(** Each registered name with the handler it reaches. *)
Lemma handle_call_tool_table (args : option dict) (s : state W) :
  handle_call_tool client "list-buckets" args s
  = handle (ListBucketsHandler client) "list-buckets" args s
  ∧ handle_call_tool client "exists-bucket" args s
    = handle (ExistsBucketHandler client) "exists-bucket" args s
  ∧ handle_call_tool client "create-bucket" args s
    = handle (CreateBucketHandler client) "create-bucket" args s
  ∧ handle_call_tool client "delete-bucket" args s
    = handle (DeleteBucketHandler client) "delete-bucket" args s
  ∧ handle_call_tool client "list-objects" args s
    = handle (ListObjectsHandler client) "list-objects" args s
  ∧ handle_call_tool client "get-object" args s
    = handle (GetObjectHandler client) "get-object" args s
  ∧ handle_call_tool client "put-object" args s
    = handle (PutObjectHandler client) "put-object" args s
  ∧ handle_call_tool client "delete-object" args s
    = handle (DeleteObjectHandler client) "delete-object" args s
  ∧ handle_call_tool client "get-object-metadata" args s
    = handle (GetObjectMetadataHandler client) "get-object-metadata" args s.
Proof. repeat split. Qed.

Lemma tool_handlers_registered (name : string) :
  name ∈ tool_names →
  ∃ h, (name, h) ∈ tool_handlers_items client
       ∧ tool_handlers client !! name = Some h.
Proof.
  intros Hin. apply tool_names_registered in Hin.
  apply list_elem_of_fmap in Hin as ([n h] & -> & Hin).
  exists h. split; [done | by apply tool_handlers_lookup].
Qed.

(** C1.  The catalog names nine tools, and each of them is registered: a
    call under one of the nine names is the call of that tool's handler, as
    listed, on the same arguments and state, so that its result and its
    effects are the handler's; a call under any other name raises the
    unknown-tool error and leaves the state as it was: the world is
    untouched and no client call is logged. *)
Theorem handle_call_tool_dispatch (name : string) (args : option dict)
    (s : state W) :
  length tool_names = 9%nat
  ∧ (handle_call_tool client "list-buckets" args s
     = handle (ListBucketsHandler client) "list-buckets" args s
     ∧ handle_call_tool client "exists-bucket" args s
       = handle (ExistsBucketHandler client) "exists-bucket" args s
     ∧ handle_call_tool client "create-bucket" args s
       = handle (CreateBucketHandler client) "create-bucket" args s
     ∧ handle_call_tool client "delete-bucket" args s
       = handle (DeleteBucketHandler client) "delete-bucket" args s
     ∧ handle_call_tool client "list-objects" args s
       = handle (ListObjectsHandler client) "list-objects" args s
     ∧ handle_call_tool client "get-object" args s
       = handle (GetObjectHandler client) "get-object" args s
     ∧ handle_call_tool client "put-object" args s
       = handle (PutObjectHandler client) "put-object" args s
     ∧ handle_call_tool client "delete-object" args s
       = handle (DeleteObjectHandler client) "delete-object" args s
     ∧ handle_call_tool client "get-object-metadata" args s
       = handle (GetObjectMetadataHandler client) "get-object-metadata" args s)
  ∧ (name ∈ tool_names →
     ∃ h, (name, h) ∈ tool_handlers_items client
          ∧ handle_call_tool client name args s = handle h name args s)
  ∧ (∀ h, (name, h) ∈ tool_handlers_items client →
          name ∈ tool_names
          ∧ handle_call_tool client name args s = handle h name args s)
  ∧ (name ∉ tool_names →
     handle_call_tool client name args s
     = (Raise (ValueError ("Unknown tool: " +:+ name)), s)).
Proof.
  split; [reflexivity|]. split; [apply handle_call_tool_table|].
  split; [|split].
  - intros Hin. destruct (tool_handlers_registered name Hin) as (h & Hh & Hl).
    exists h. split; [done|]. unfold handle_call_tool. by rewrite Hl.
  - intros h Hin. split.
    + apply tool_names_registered, list_elem_of_fmap. by exists (name, h).
    + unfold handle_call_tool. by rewrite (tool_handlers_lookup _ _ Hin).
  - intros Hn. unfold handle_call_tool.
    by rewrite (tool_handlers_unknown _ Hn).
Qed.
End Dispatch.

Section HandlerProperties.
Context {W : Type} (client : S3Client W).

(** *** exists-bucket *)

(** C4 (as amended).  With [bucket_name] in the mapping, exists-bucket
    returns the one block [Bucket {bucket_name} exists] when [head_bucket]
    returns, and the one block [Bucket {bucket_name} not exists] when it
    raises a [ClientError], whatever its code: not-found and access-denied
    give the same answer.  A failure of the probe that is no [ClientError]
    is not caught: it reaches the caller. *)
Theorem exists_bucket_result (d : dict) (v : value) (s : state W) :
  d !! "bucket_name" = Some v →
  (∀ w', head_bucket client {[ "Bucket" := v ]} (world s) = (Ok (), w') →
         handle (ExistsBucketHandler client) "exists-bucket" (Some d) s
         = (Ok [text_content ("Bucket " +:+ py_str v +:+ " exists")],
            State w' (calls s ++ [Call op_head_bucket {[ "Bucket" := v ]} None])))
  ∧ (∀ code w',
       head_bucket client {[ "Bucket" := v ]} (world s)
       = (Raise (ClientError code), w') →
       handle (ExistsBucketHandler client) "exists-bucket" (Some d) s
       = (Ok [text_content ("Bucket " +:+ py_str v +:+ " not exists")],
          State w' (calls s ++ [Call op_head_bucket {[ "Bucket" := v ]} None])))
  ∧ (∀ e w',
       isinstance e ClientErrorC = false →
       head_bucket client {[ "Bucket" := v ]} (world s) = (Raise e, w') →
       handle (ExistsBucketHandler client) "exists-bucket" (Some d) s
       = (Raise e,
          State w' (calls s ++ [Call op_head_bucket {[ "Bucket" := v ]} None]))).
Proof.
  intros Hd.
  split; [intros w' Hc | split; [intros code w' Hc | intros e w' He Hc]];
    py_unfold; unfold dict_get_default; rewrite Hd; cbn; rewrite Hc; cbn;
    [done | done | by rewrite He].
Qed.

(** *** list-objects *)

Lemma lookup_set_if_not_None (k k' : string) (v : value) (kw : dict) :
  set_if_not_None k v kw !! k'
  = if decide (k = k') then (if is_not_None v then Some v else kw !! k')
    else kw !! k'.
Proof.
  unfold set_if_not_None. destruct (is_not_None v).
  - by rewrite lookup_insert.
  - by destruct (decide (k = k')).
Qed.

Lemma list_objects_handle_calls (d : dict) (s : state W) :
  calls (handle (ListObjectsHandler client) "list-objects" (Some d) s).2
  = calls s ++ [Call op_list_objects_v2 (list_objects_request d) None].
Proof.
  py_unfold. unfold list_objects_request, dict_get.
  destruct (list_objects_v2 client _ (world s)) as [[[[objs|]]|e] w'];
    cbn; try done.
  by destruct (isinstance e ClientErrorC).
Qed.

Lemma dict_get_optional (d : dict) (k : string) :
  (if is_not_None (dict_get d k) then Some (dict_get d k) else None) = passed d k.
Proof.
  unfold dict_get, dict_get_default, passed.
  by destruct (d !! k) as [[]|].
Qed.

Lemma list_objects_request_lookup (d : dict) :
  list_objects_request d !! "Bucket" = Some (dict_get d "bucket_name")
  ∧ list_objects_request d !! "Prefix" = passed d "prefix"
  ∧ list_objects_request d !! "Delimiter" = passed d "delimiter"
  ∧ list_objects_request d !! "ContinuationToken" = passed d "continuation_token"
  ∧ list_objects_request d !! "StartAfter" = passed d "start_after"
  ∧ list_objects_request d !! "MaxKeys"
    = match d !! "max_keys" with
      | None => Some (VInt 1000)
      | Some _ => passed d "max_keys"
      end.
Proof.
  unfold list_objects_request, list_objects_kwargs.
  repeat split; rewrite !lookup_set_if_not_None; cbn;
    rewrite ?lookup_singleton_eq, ?dict_get_optional; try done.
  unfold dict_get_default, passed. by destruct (d !! "max_keys") as [[]|].
Qed.

Lemma passed_is_Some (d : dict) (k : string) :
  is_Some (passed d k) ↔ ∃ v, d !! k = Some v ∧ v ≠ VNone.
Proof.
  unfold passed. split.
  - intros [v Hv]. destruct (d !! k) as [[]|]; try done; eauto.
  - intros (v & -> & Hv). destruct v; try done; eauto.
Qed.

(** C5 (as amended).  Every list-objects invocation on an argument mapping
    issues exactly one client call, [list_objects_v2], whose keywords hold
    [Bucket], the value of [bucket_name]; each of prefix, delimiter,
    continuation_token and start_after is among the keywords if and only if
    the mapping holds it with a value other than null, and then with that
    value; and [MaxKeys] is 1000 when max_keys is omitted. *)
Theorem list_objects_request_sent (d : dict) (s : state W) :
  ∃ kw : dict,
    calls (handle (ListObjectsHandler client) "list-objects" (Some d) s).2
    = calls s ++ [Call op_list_objects_v2 kw None]
    ∧ kw !! "Bucket" = Some (dict_get d "bucket_name")
    ∧ (∀ k K, (k, K) ∈ list_objects_optionals →
         kw !! K = passed d k
         ∧ (is_Some (kw !! K) ↔ ∃ v, d !! k = Some v ∧ v ≠ VNone))
    ∧ (d !! "max_keys" = None → kw !! "MaxKeys" = Some (VInt 1000)).
Proof.
  exists (list_objects_request d).
  destruct (list_objects_request_lookup d) as (HB & HP & HD & HC & HS & HM).
  split; [apply list_objects_handle_calls|].
  split; [done|]. split.
  - intros k K Hin. unfold list_objects_optionals in Hin.
    rewrite !elem_of_cons, elem_of_nil in Hin.
    assert (list_objects_request d !! K = passed d k) as ->
      by (destruct Hin as [|[|[|[|[]]]]]; simplify_eq; done).
    split; [done | apply passed_is_Some].
  - intros Hm. by rewrite HM, Hm.
Qed.

(** *** A listing without ['Contents'] *)

(** C10.  When [list_objects_v2] returns a response without the
    ['Contents'] key, [ListObjectsHandler] raises [KeyError], which its
    [except ClientError] clause does not catch: it returns neither an empty
    list of blocks nor the failure text. *)
Theorem list_objects_missing_Contents (d : dict) (s : state W) (w' : W) :
  list_objects_v2 client (list_objects_request d) (world s)
  = (Ok {| Contents := None |}, w') →
  handle (ListObjectsHandler client) "list-objects" (Some d) s
  = (Raise (KeyError "Contents"),
     State w' (calls s ++ [Call op_list_objects_v2 (list_objects_request d) None])).
Proof.
  intros Hc. py_unfold. unfold list_objects_request, dict_get in Hc.
  by rewrite Hc.
Qed.

(** On every other response of a successful listing the handler returns one
    block per entry. *)
Lemma list_objects_with_Contents (d : dict) (s : state W) (w' : W)
    (objs : list Object) :
  list_objects_v2 client (list_objects_request d) (world s)
  = (Ok {| Contents := Some objs |}, w') →
  handle (ListObjectsHandler client) "list-objects" (Some d) s
  = (Ok ((λ obj,
            text_content
              ("Object[key=" +:+ get_or (Key obj) "null"
               +:+ ", version_id=" +:+ get_or (VersionId obj) "null" +:+ "]"))
           <$> objs),
     State w' (calls s ++ [Call op_list_objects_v2 (list_objects_request d) None])).
Proof.
  intros Hc. py_unfold. unfold list_objects_request, dict_get in Hc.
  by rewrite Hc.
Qed.

(** *** Failures of the storage call *)

Lemma list_buckets_raises (args : option dict) (s : state W) (e : exn) (w' : W) :
  list_buckets client (world s) = (Raise e, w') →
  handle (ListBucketsHandler client) "list-buckets" args s
  = (if isinstance e RuntimeErrorC
     then Ok [text_content "Failed to list buckets"] else Raise e,
     State w' (calls s ++ [Call op_list_buckets ∅ None])).
Proof. intros Hc. py_unfold. rewrite Hc. by destruct (isinstance e _). Qed.

Lemma create_bucket_raises (d : dict) (s : state W) (e : exn) (w' : W) :
  create_bucket client {[ "Bucket" := dict_get d "bucket_name" ]} (world s)
  = (Raise e, w') →
  handle (CreateBucketHandler client) "create-bucket" (Some d) s
  = (if isinstance e RuntimeErrorC
     then Ok [text_content "Failed to create bucket"] else Raise e,
     State w' (calls s ++ [Call op_create_bucket
                             {[ "Bucket" := dict_get d "bucket_name" ]} None])).
Proof.
  intros Hc. py_unfold. unfold dict_get in Hc. rewrite Hc.
  by destruct (isinstance e _).
Qed.

Lemma delete_bucket_raises (d : dict) (s : state W) (e : exn) (w' : W) :
  delete_bucket client {[ "Bucket" := dict_get d "bucket_name" ]} (world s)
  = (Raise e, w') →
  handle (DeleteBucketHandler client) "delete-bucket" (Some d) s
  = (if isinstance e RuntimeErrorC
     then Ok [text_content "Failed to delete bucket"] else Raise e,
     State w' (calls s ++ [Call op_delete_bucket
                             {[ "Bucket" := dict_get d "bucket_name" ]} None])).
Proof.
  intros Hc. py_unfold. unfold dict_get in Hc. rewrite Hc.
  by destruct (isinstance e _).
Qed.

Lemma exists_bucket_raises (d : dict) (s : state W) (e : exn) (w' : W) :
  head_bucket client {[ "Bucket" := dict_get d "bucket_name" ]} (world s)
  = (Raise e, w') →
  handle (ExistsBucketHandler client) "exists-bucket" (Some d) s
  = (if isinstance e ClientErrorC
     then Ok [text_content
                ("Bucket " +:+ py_str (dict_get d "bucket_name") +:+ " not exists")]
     else Raise e,
     State w' (calls s ++ [Call op_head_bucket
                             {[ "Bucket" := dict_get d "bucket_name" ]} None])).
Proof.
  intros Hc. py_unfold. unfold dict_get in *. rewrite Hc.
  by destruct (isinstance e _).
Qed.

Lemma list_objects_raises (d : dict) (s : state W) (e : exn) (w' : W) :
  list_objects_v2 client (list_objects_request d) (world s) = (Raise e, w') →
  handle (ListObjectsHandler client) "list-objects" (Some d) s
  = (if isinstance e ClientErrorC
     then Ok [text_content "Failed to list objects"] else Raise e,
     State w' (calls s ++ [Call op_list_objects_v2 (list_objects_request d) None])).
Proof.
  intros Hc. py_unfold. unfold list_objects_request, dict_get in *. rewrite Hc.
  by destruct (isinstance e _).
Qed.

Lemma get_object_raises (d : dict) (s : state W) (e : exn) (w' : W) :
  get_object client (object_request d) (world s) = (Raise e, w') →
  handle (GetObjectHandler client) "get-object" (Some d) s
  = (if isinstance e ClientErrorC
     then Ok [text_content "Failed to get object"] else Raise e,
     State w' (calls s ++ [Call op_get_object (object_request d) None])).
Proof.
  intros Hc. py_unfold. unfold object_request, dict_get in *. rewrite Hc.
  by destruct (isinstance e _).
Qed.

Lemma put_object_raises (d : dict) (s : state W) (e : exn) (f : bytes) (w1 w' : W) :
  open_rb client (dict_get d "path") (world s) = (Ok f, w1) →
  put_object client (put_request d) f w1 = (Raise e, w') →
  handle (PutObjectHandler client) "put-object" (Some d) s
  = (if isinstance e ClientErrorC
     then Ok [text_content "Failed to put object"] else Raise e,
     State w' (calls s ++ [Call op_put_object (put_request d) (Some f)])).
Proof.
  intros Ho Hc. py_unfold. unfold put_request, dict_get in *.
  rewrite Ho. cbn. rewrite Hc. by destruct (isinstance e _).
Qed.

Lemma delete_object_raises (d : dict) (s : state W) (e : exn) (w' : W) :
  delete_object client (object_request d) (world s) = (Raise e, w') →
  handle (DeleteObjectHandler client) "delete-object" (Some d) s
  = (if isinstance e ClientErrorC
     then Ok [text_content "Failed to delete object"] else Raise e,
     State w' (calls s ++ [Call op_delete_object (object_request d) None])).
Proof.
  intros Hc. py_unfold. unfold object_request, dict_get in *. rewrite Hc.
  by destruct (isinstance e _).
Qed.

Lemma get_object_metadata_raises (d : dict) (s : state W) (e : exn) (w' : W) :
  head_object client (object_request d) (world s) = (Raise e, w') →
  handle (GetObjectMetadataHandler client) "get-object-metadata" (Some d) s
  = (if isinstance e ClientErrorC
     then Ok [text_content "Failed to get object metadata"] else Raise e,
     State w' (calls s ++ [Call op_head_object (object_request d) None])).
Proof.
  intros Hc. py_unfold. unfold object_request, dict_get in *. rewrite Hc.
  by destruct (isinstance e _).
Qed.

(** *** Resource listing *)

(** The resource built for a bucket whose uri validated as [u]. *)
Lemma make_resource_result (uri name mimeType description : string)
    (s : state W) :
  make_resource client uri name mimeType description s
  = (match any_url client uri with
     | Ok u => Ok {| Resource.uri := u; Resource.name := name;
                     Resource.mimeType := mimeType;
                     Resource.description := description |}
     | Raise e => Raise e
     end, s).
Proof.
  unfold make_resource, lift, mbind, py_bind, mret, py_ret.
  by destruct (any_url client uri).
Qed.

Lemma for_append_resources (l : list Bucket) (us : list string) (s : state W) :
  Forall2 (λ bucket u, any_url client ("s3://" +:+ Name bucket) = Ok u) l us →
  for_append
    (λ bucket,
       make_resource client ("s3://" +:+ Name bucket)
         ("Bucket: " +:+ Name bucket) "text/plain"
         ("Data in bucket: " +:+ Name bucket)) l s
  = (Ok (zip_with bucket_resource l us), s).
Proof.
  induction 1 as [|bucket u l us Hu _ IH]; [done|].
  cbn [for_append]. unfold mbind, py_bind at 1.
  rewrite make_resource_result, Hu. unfold mbind, py_bind at 1. rewrite IH.
  reflexivity.
Qed.

Lemma for_append_invalid (l1 l2 : list Bucket) (us : list string)
    (bucket : Bucket) (e : exn) (s : state W) :
  Forall2 (λ bucket u, any_url client ("s3://" +:+ Name bucket) = Ok u) l1 us →
  any_url client ("s3://" +:+ Name bucket) = Raise e →
  for_append
    (λ bucket,
       make_resource client ("s3://" +:+ Name bucket)
         ("Bucket: " +:+ Name bucket) "text/plain"
         ("Data in bucket: " +:+ Name bucket)) (l1 ++ bucket :: l2) s
  = (Raise e, s).
Proof.
  intros Hl He. induction Hl as [|b u l us Hu _ IH]; cbn [for_append app].
  - unfold mbind, py_bind at 1. by rewrite make_resource_result, He.
  - unfold mbind, py_bind at 1. rewrite make_resource_result, Hu.
    unfold mbind, py_bind at 1. by rewrite IH.
Qed.

Lemma list_resources_returns (s : state W) (r : ListBucketsOutput) (w' : W)
    (us : list string) :
  list_buckets client (world s) = (Ok r, w') →
  Forall2 (λ bucket u, any_url client ("s3://" +:+ Name bucket) = Ok u)
    (Buckets r) us →
  list_resources client s
  = (Ok (zip_with bucket_resource (Buckets r) us),
     State w' (calls s ++ [Call op_list_buckets ∅ None])).
Proof.
  intros Hc Hus. unfold list_resources, try_except, client_list_buckets,
    client_call. unfold mbind, py_bind at 1. rewrite Hc.
  by rewrite (for_append_resources _ _ _ Hus).
Qed.

Lemma list_resources_invalid_uri (s : state W) (r : ListBucketsOutput) (w' : W)
    (l1 l2 : list Bucket) (us : list string) (bucket : Bucket) (e : exn) :
  list_buckets client (world s) = (Ok r, w') →
  Buckets r = l1 ++ bucket :: l2 →
  Forall2 (λ bucket u, any_url client ("s3://" +:+ Name bucket) = Ok u) l1 us →
  any_url client ("s3://" +:+ Name bucket) = Raise e →
  list_resources client s
  = (if isinstance e RuntimeErrorC then Ok [] else Raise e,
     State w' (calls s ++ [Call op_list_buckets ∅ None])).
Proof.
  intros Hc Hr Hus He. unfold list_resources, try_except, client_list_buckets,
    client_call. unfold mbind, py_bind at 1. rewrite Hc, Hr.
  rewrite (for_append_invalid _ _ _ _ _ _ Hus He).
  by destruct (isinstance e _).
Qed.

Lemma list_resources_raises (s : state W) (e : exn) (w' : W) :
  list_buckets client (world s) = (Raise e, w') →
  list_resources client s
  = (if isinstance e RuntimeErrorC then Ok [] else Raise e,
     State w' (calls s ++ [Call op_list_buckets ∅ None])).
Proof.
  intros Hc. unfold list_resources, try_except, client_list_buckets,
    client_call. unfold mbind, py_bind at 1. rewrite Hc.
  by destruct (isinstance e _).
Qed.

(** *** The client call of each handler *)

Lemma list_buckets_handle_calls (args : option dict) (s : state W) :
  calls (handle (ListBucketsHandler client) "list-buckets" args s).2
  = calls s ++ [Call op_list_buckets ∅ None].
Proof.
  py_unfold. destruct (list_buckets client (world s)) as [[r|e] w']; cbn;
    [done|]. by destruct (isinstance e _).
Qed.

Lemma exists_bucket_handle_calls (d : dict) (s : state W) :
  calls (handle (ExistsBucketHandler client) "exists-bucket" (Some d) s).2
  = calls s ++ [Call op_head_bucket {[ "Bucket" := dict_get d "bucket_name" ]} None].
Proof.
  py_unfold. unfold dict_get.
  destruct (head_bucket client _ (world s)) as [[r|e] w']; cbn; [done|].
  by destruct (isinstance e _).
Qed.

Lemma create_bucket_handle_calls (d : dict) (s : state W) :
  calls (handle (CreateBucketHandler client) "create-bucket" (Some d) s).2
  = calls s
    ++ [Call op_create_bucket {[ "Bucket" := dict_get d "bucket_name" ]} None].
Proof.
  py_unfold. unfold dict_get.
  destruct (create_bucket client _ (world s)) as [[r|e] w']; cbn; [done|].
  by destruct (isinstance e _).
Qed.

Lemma delete_bucket_handle_calls (d : dict) (s : state W) :
  calls (handle (DeleteBucketHandler client) "delete-bucket" (Some d) s).2
  = calls s
    ++ [Call op_delete_bucket {[ "Bucket" := dict_get d "bucket_name" ]} None].
Proof.
  py_unfold. unfold dict_get.
  destruct (delete_bucket client _ (world s)) as [[r|e] w']; cbn; [done|].
  by destruct (isinstance e _).
Qed.

Lemma get_object_handle_calls (d : dict) (s : state W) :
  calls (handle (GetObjectHandler client) "get-object" (Some d) s).2
  = calls s ++ [Call op_get_object (object_request d) None].
Proof.
  py_unfold. unfold object_request, dict_get.
  destruct (get_object client _ (world s)) as [[response|e] w1]; cbn;
    [|by destruct (isinstance e _)].
  destruct (open_wb client _ w1) as [[r|e] w2]; cbn;
    [|by destruct (isinstance e _)].
  destruct (body_read client response w2) as [[data|e] w3]; cbn;
    [|by destruct (isinstance e _)].
  destruct (file_write client _ data w3) as [[r'|e] w']; cbn; [done|].
  by destruct (isinstance e _).
Qed.

Lemma put_object_handle_calls (d : dict) (s : state W) (f : bytes) (w1 : W) :
  open_rb client (dict_get d "path") (world s) = (Ok f, w1) →
  calls (handle (PutObjectHandler client) "put-object" (Some d) s).2
  = calls s ++ [Call op_put_object (put_request d) (Some f)].
Proof.
  intros Ho. py_unfold. unfold put_request, dict_get in *. rewrite Ho. cbn.
  destruct (put_object client _ f w1) as [[r|e] w']; cbn; [done|].
  by destruct (isinstance e _).
Qed.

Lemma delete_object_handle_calls (d : dict) (s : state W) :
  calls (handle (DeleteObjectHandler client) "delete-object" (Some d) s).2
  = calls s ++ [Call op_delete_object (object_request d) None].
Proof.
  py_unfold. unfold object_request, dict_get.
  destruct (delete_object client _ (world s)) as [[r|e] w']; cbn; [done|].
  by destruct (isinstance e _).
Qed.

Lemma get_object_metadata_handle_calls (d : dict) (s : state W) :
  calls (handle (GetObjectMetadataHandler client) "get-object-metadata"
           (Some d) s).2
  = calls s ++ [Call op_head_object (object_request d) None].
Proof.
  py_unfold. unfold object_request, dict_get.
  destruct (head_object client _ (world s)) as [[r|e] w']; cbn; [done|].
  by destruct (isinstance e _).
Qed.

Lemma lookup_object_request_Bucket (d : dict) :
  object_request d !! "Bucket" = Some (dict_get d "bucket_name").
Proof.
  unfold object_request, object_kwargs. by rewrite lookup_set_if_not_None.
Qed.

(** *** Required arguments *)

Lemma dict_get_default_insert_None (d : dict) (k k' : string) (dflt : value) :
  d !! k = None → k ≠ k' ∨ dflt = VNone →
  dict_get_default (<[k := VNone]> d) k' dflt = dict_get_default d k' dflt.
Proof.
  intros Hd Hk. unfold dict_get_default. destruct (decide (k = k')) as [<-|Hne].
  - rewrite lookup_insert_eq, Hd. by destruct Hk.
  - by rewrite lookup_insert_ne.
Qed.

(** Reading an omitted argument is reading a null argument. *)
Lemma omitted_is_null (d : dict) (s : state W) (tool k : string)
    (h : ToolHandler W) :
  (tool, h) ∈ tool_handlers_items client →
  k ∈ required_args tool →
  d !! k = None →
  handle h tool (Some d) s = handle h tool (Some (<[k := VNone]> d)) s.
Proof.
  intros Hin Hk Hd. unfold tool_handlers_items in Hin.
  rewrite !elem_of_cons, elem_of_nil in Hin.
  destruct Hin as [|[|[|[|[|[|[|[|[|[]]]]]]]]]]; simplify_eq;
    set (r := required_args _) in Hk; vm_compute in r; subst r;
    rewrite ?elem_of_cons, ?elem_of_nil in Hk;
    destruct_or? Hk; try done; subst k; py_unfold;
    rewrite !(dict_get_default_insert_None d _ _ _ Hd)
      by (first [by left | by right]);
    done.
Qed.

(** C3 (as amended).  No handler checks that a required argument is there.
    An argument the mapping omits is read as [None], and the handler goes on
    as it does for an explicit null; with [bucket_name] omitted, each of
    exists-bucket, create-bucket, delete-bucket, list-objects, get-object,
    delete-object and get-object-metadata still issues its one client call,
    with [Bucket=None], and so does put-object once the local file opens. *)
Theorem required_arguments_not_checked (d : dict) (s : state W) :
  (∀ tool h k, (tool, h) ∈ tool_handlers_items client →
               k ∈ required_args tool →
               d !! k = None →
               handle h tool (Some d) s
               = handle h tool (Some (<[k := VNone]> d)) s)
  ∧ (d !! "bucket_name" = None →
     (∀ tool h, (tool, h) ∈ tool_handlers_items client →
                tool ≠ "list-buckets" → tool ≠ "put-object" →
                ∃ c, calls (handle h tool (Some d) s).2 = calls s ++ [c]
                     ∧ kwargs c !! "Bucket" = Some VNone)
     ∧ (∀ f w', open_rb client (dict_get d "path") (world s) = (Ok f, w') →
                ∃ c, calls (handle (PutObjectHandler client) "put-object"
                              (Some d) s).2 = calls s ++ [c]
                     ∧ kwargs c !! "Bucket" = Some VNone)).
Proof.
  split; [intros tool h k; apply omitted_is_null|].
  intros Hd.
  assert (dict_get d "bucket_name" = VNone) as Hb
    by (unfold dict_get, dict_get_default; by rewrite Hd).
  split.
  - intros tool h Hin Hlb Hpo. unfold tool_handlers_items in Hin.
    rewrite !elem_of_cons, elem_of_nil in Hin.
    destruct Hin as [|[|[|[|[|[|[|[|[|[]]]]]]]]]]; simplify_eq; eexists.
    + split; [apply create_bucket_handle_calls|].
      cbn. by rewrite lookup_singleton_eq, Hb.
    + split; [apply delete_bucket_handle_calls|].
      cbn. by rewrite lookup_singleton_eq, Hb.
    + split; [apply exists_bucket_handle_calls|].
      cbn. by rewrite lookup_singleton_eq, Hb.
    + split; [apply list_objects_handle_calls|].
      cbn. destruct (list_objects_request_lookup d) as [-> _]. by rewrite Hb.
    + split; [apply get_object_handle_calls|].
      cbn. by rewrite lookup_object_request_Bucket, Hb.
    + split; [apply delete_object_handle_calls|].
      cbn. by rewrite lookup_object_request_Bucket, Hb.
    + split; [apply get_object_metadata_handle_calls|].
      cbn. by rewrite lookup_object_request_Bucket, Hb.
  - intros f w' Ho. eexists.
    split; [by apply (put_object_handle_calls d s f w')|].
    cbn. unfold put_request. by rewrite lookup_insert_eq, Hb.
Qed.

(** *** Local file failures *)

(** The success paths of the two handlers that touch the file system. *)
Lemma put_object_returns (d : dict) (s : state W) (f : bytes) (w1 w' : W) :
  open_rb client (dict_get d "path") (world s) = (Ok f, w1) →
  put_object client (put_request d) f w1 = (Ok (), w') →
  handle (PutObjectHandler client) "put-object" (Some d) s
  = (Ok [text_content
           ("Object " +:+ py_str (dict_get d "key") +:+ " saved successfully")],
     State w' (calls s ++ [Call op_put_object (put_request d) (Some f)])).
Proof.
  intros Ho Hp. py_unfold. unfold put_request, dict_get in *.
  rewrite Ho. cbn. by rewrite Hp.
Qed.

Lemma get_object_returns (d : dict) (s : state W)
    (response : StreamingBody client) (data : bytes) (w1 w2 w3 w' : W) :
  get_object client (object_request d) (world s) = (Ok response, w1) →
  open_wb client (dict_get d "path") w1 = (Ok (), w2) →
  body_read client response w2 = (Ok data, w3) →
  file_write client (dict_get d "path") data w3 = (Ok (), w') →
  handle (GetObjectHandler client) "get-object" (Some d) s
  = (Ok [text_content
           ("Object " +:+ py_str (dict_get d "key") +:+ " saved successfully")],
     State w' (calls s ++ [Call op_get_object (object_request d) None])).
Proof.
  intros Hg Ho Hr Hw. py_unfold. unfold object_request, dict_get in *.
  rewrite Hg. cbn. rewrite Ho. cbn. rewrite Hr. cbn. by rewrite Hw.
Qed.

(** [open(path, 'rb')] raises: no client call is issued. *)
Lemma put_object_open_raises (d : dict) (s : state W) (e : exn) (w' : W) :
  open_rb client (dict_get d "path") (world s) = (Raise e, w') →
  handle (PutObjectHandler client) "put-object" (Some d) s
  = (if isinstance e ClientErrorC
     then Ok [text_content "Failed to put object"] else Raise e,
     State w' (calls s)).
Proof.
  intros Ho. py_unfold. unfold dict_get in Ho. rewrite Ho. cbn.
  by destruct (isinstance e _).
Qed.

(** [open(path, 'wb')] raises, after the object was fetched: the body is
    not read. *)
Lemma get_object_open_raises (d : dict) (s : state W) (e : exn)
    (response : StreamingBody client) (w1 w' : W) :
  get_object client (object_request d) (world s) = (Ok response, w1) →
  open_wb client (dict_get d "path") w1 = (Raise e, w') →
  handle (GetObjectHandler client) "get-object" (Some d) s
  = (if isinstance e ClientErrorC
     then Ok [text_content "Failed to get object"] else Raise e,
     State w' (calls s ++ [Call op_get_object (object_request d) None])).
Proof.
  intros Hg Ho. py_unfold. unfold object_request, dict_get in *.
  rewrite Hg. cbn. rewrite Ho. cbn. by destruct (isinstance e _).
Qed.

(** Reading the body raises, after the file was opened. *)
Lemma get_object_read_raises (d : dict) (s : state W) (e : exn)
    (response : StreamingBody client) (w1 w2 w' : W) :
  get_object client (object_request d) (world s) = (Ok response, w1) →
  open_wb client (dict_get d "path") w1 = (Ok (), w2) →
  body_read client response w2 = (Raise e, w') →
  handle (GetObjectHandler client) "get-object" (Some d) s
  = (if isinstance e ClientErrorC
     then Ok [text_content "Failed to get object"] else Raise e,
     State w' (calls s ++ [Call op_get_object (object_request d) None])).
Proof.
  intros Hg Ho Hr. py_unfold. unfold object_request, dict_get in *.
  rewrite Hg. cbn. rewrite Ho. cbn. rewrite Hr. cbn.
  by destruct (isinstance e _).
Qed.

(** Writing the body raises. *)
Lemma get_object_write_raises (d : dict) (s : state W) (e : exn)
    (response : StreamingBody client) (data : bytes) (w1 w2 w3 w' : W) :
  get_object client (object_request d) (world s) = (Ok response, w1) →
  open_wb client (dict_get d "path") w1 = (Ok (), w2) →
  body_read client response w2 = (Ok data, w3) →
  file_write client (dict_get d "path") data w3 = (Raise e, w') →
  handle (GetObjectHandler client) "get-object" (Some d) s
  = (if isinstance e ClientErrorC
     then Ok [text_content "Failed to get object"] else Raise e,
     State w' (calls s ++ [Call op_get_object (object_request d) None])).
Proof.
  intros Hg Ho Hr Hw. py_unfold. unfold object_request, dict_get in *.
  rewrite Hg. cbn. rewrite Ho. cbn. rewrite Hr. cbn. rewrite Hw. cbn.
  by destruct (isinstance e _).
Qed.

(** C9 (as amended).  A failure of a local file operation is not caught
    unless it is a [ClientError].  An exception [e] that is no [ClientError]
    reaches the caller, with no text block, when it is raised by the [open]
    of put-object (before any client call), by [put_object] itself, which
    is where the file handed to the client is read (after the call is
    issued), or, in get-object after its client call, by the [open] of the
    output path, by the read of the body, or by the write.  A [ClientError]
    of the storage call gives the failure text instead, so the two kinds of
    failure are told apart. *)
Theorem local_io_failure_propagates (d : dict) (s : state W) (e : exn) :
  isinstance e ClientErrorC = false →
  (∀ w', open_rb client (dict_get d "path") (world s) = (Raise e, w') →
         handle (PutObjectHandler client) "put-object" (Some d) s
         = (Raise e, State w' (calls s)))
  ∧ (∀ f w1 w',
       open_rb client (dict_get d "path") (world s) = (Ok f, w1) →
       put_object client (put_request d) f w1 = (Raise e, w') →
       handle (PutObjectHandler client) "put-object" (Some d) s
       = (Raise e,
          State w' (calls s ++ [Call op_put_object (put_request d) (Some f)])))
  ∧ (∀ response w1 w',
       get_object client (object_request d) (world s) = (Ok response, w1) →
       open_wb client (dict_get d "path") w1 = (Raise e, w') →
       handle (GetObjectHandler client) "get-object" (Some d) s
       = (Raise e,
          State w' (calls s ++ [Call op_get_object (object_request d) None])))
  ∧ (∀ response w1 w2 w',
       get_object client (object_request d) (world s) = (Ok response, w1) →
       open_wb client (dict_get d "path") w1 = (Ok (), w2) →
       body_read client response w2 = (Raise e, w') →
       handle (GetObjectHandler client) "get-object" (Some d) s
       = (Raise e,
          State w' (calls s ++ [Call op_get_object (object_request d) None])))
  ∧ (∀ response data w1 w2 w3 w',
       get_object client (object_request d) (world s) = (Ok response, w1) →
       open_wb client (dict_get d "path") w1 = (Ok (), w2) →
       body_read client response w2 = (Ok data, w3) →
       file_write client (dict_get d "path") data w3 = (Raise e, w') →
       handle (GetObjectHandler client) "get-object" (Some d) s
       = (Raise e,
          State w' (calls s ++ [Call op_get_object (object_request d) None])))
  ∧ (∀ code f w1 w',
       open_rb client (dict_get d "path") (world s) = (Ok f, w1) →
       put_object client (put_request d) f w1 = (Raise (ClientError code), w') →
       handle (PutObjectHandler client) "put-object" (Some d) s
       = (Ok [text_content "Failed to put object"],
          State w' (calls s ++ [Call op_put_object (put_request d) (Some f)])))
  ∧ (∀ code w',
       get_object client (object_request d) (world s)
       = (Raise (ClientError code), w') →
       handle (GetObjectHandler client) "get-object" (Some d) s
       = (Ok [text_content "Failed to get object"],
          State w' (calls s ++ [Call op_get_object (object_request d) None]))).
Proof.
  intros He. repeat split.
  - intros w' Ho. by rewrite (put_object_open_raises _ _ _ _ Ho), He.
  - intros f w1 w' Ho Hp.
    by rewrite (put_object_raises _ _ _ _ _ _ Ho Hp), He.
  - intros response w1 w' Hg Ho.
    by rewrite (get_object_open_raises _ _ _ _ _ _ Hg Ho), He.
  - intros response w1 w2 w' Hg Ho Hr.
    by rewrite (get_object_read_raises _ _ _ _ _ _ _ Hg Ho Hr), He.
  - intros response data w1 w2 w3 w' Hg Ho Hr Hw.
    by rewrite (get_object_write_raises _ _ _ _ _ _ _ _ _ Hg Ho Hr Hw), He.
  - intros code f w1 w' Ho Hp. by rewrite (put_object_raises _ _ _ _ _ _ Ho Hp).
  - intros code w' Hg. by rewrite (get_object_raises _ _ _ _ Hg).
Qed.
End HandlerProperties.

(** ** Startup *)

Lemma config_lookups (a b c d : value) :
  let config : dict :=
    {[ "endpoint" := a; "access_key_id" := b; "access_key-secret" := c;
       "region_name" := d ]} in
  dict_get config "endpoint" = a ∧ dict_get config "access_key_id" = b
  ∧ dict_get config "access_key-secret" = c ∧ dict_get config "region_name" = d.
Proof. by vm_compute. Qed.

Lemma truthy_os_getenv (environ : gmap string string) (k : string) :
  truthy (os_getenv environ k) = false ↔ unset_or_empty environ k.
Proof.
  unfold os_getenv, unset_or_empty. destruct (environ !! k) as [s|]; cbn.
  - rewrite negb_false_iff, String.eqb_eq. split.
    + intros ->. by right.
    + intros [?|[= ->]]; done.
  - split; [by left | done].
Qed.

Lemma load_config_result (environ : gmap string string) :
  load_config environ
  = if forallb truthy (required_values environ)
    then Ok ({[ "endpoint" := os_getenv environ "ENDPOINT";
                "access_key_id" := os_getenv environ "ACCESS_KEY_ID";
                "access_key-secret" := os_getenv environ "ACCESS_KEY_SECRET";
                "region_name" :=
                  os_getenv_default environ "REGION_NAME" "us-east-1" ]} : dict)
    else Raise (ValueError "Missing required configuration").
Proof.
  unfold load_config, required_values.
  destruct (config_lookups (os_getenv environ "ENDPOINT")
              (os_getenv environ "ACCESS_KEY_ID")
              (os_getenv environ "ACCESS_KEY_SECRET")
              (os_getenv_default environ "REGION_NAME" "us-east-1"))
    as (-> & -> & -> & _).
  by destruct (forallb truthy _).
Qed.

Lemma required_env_missing (environ : gmap string string) :
  (∃ k, k ∈ required_env ∧ unset_or_empty environ k)
  ↔ forallb truthy (required_values environ) = false.
Proof.
  unfold required_values. cbn [forallb].
  rewrite andb_true_r, !andb_false_iff, !truthy_os_getenv.
  unfold required_env. split.
  - intros (k & Hk & Hm). rewrite !elem_of_cons, elem_of_nil in Hk.
    destruct Hk as [->|[->|[->|[]]]]; tauto.
  - intros [H|[H|H]]; eexists; (split; [|exact H]);
      rewrite !elem_of_cons; tauto.
Qed.

Lemma required_env_all_set (environ : gmap string string) (e a s : string) :
  environ !! "ENDPOINT" = Some e → e ≠ "" →
  environ !! "ACCESS_KEY_ID" = Some a → a ≠ "" →
  environ !! "ACCESS_KEY_SECRET" = Some s → s ≠ "" →
  ¬ (∃ k, k ∈ required_env ∧ unset_or_empty environ k).
Proof.
  intros He Hne Ha Hna Hs Hns (k & Hk & Hm). unfold required_env in Hk.
  rewrite !elem_of_cons, elem_of_nil in Hk. unfold unset_or_empty in Hm.
  destruct Hk as [->|[->|[->|[]]]]; destruct Hm as [Hm|Hm]; congruence.
Qed.

(** C7 (as amended).  Startup dies with the configuration error before
    [boto3.client] is called, so that no client exists and the server loop
    is not entered, if and only if at least one of [ENDPOINT],
    [ACCESS_KEY_ID], [ACCESS_KEY_SECRET] is unset or set to the empty
    string.  Otherwise [boto3.client] is called exactly once, for the
    service [s3] with the three values and the region, ["us-east-1"] when
    [REGION_NAME] is unset: the server loop is entered with the client it
    returns, and an exception it raises is fatal as well. *)
Theorem startup_configuration {C : Type} (boto3_client : ClientArgs → result C)
    (environ : gmap string string) :
  ((∃ k, k ∈ required_env ∧ unset_or_empty environ k)
   ↔ main boto3_client environ
     = Died (ValueError "Missing required configuration") (Globals None []))
  ∧ (¬ (∃ k, k ∈ required_env ∧ unset_or_empty environ k) →
     main boto3_client environ
     = match boto3_client (configured_args environ) with
       | Ok c => Serving (Globals (Some c) [configured_args environ])
       | Raise e => Died e (Globals None [configured_args environ])
       end).
Proof.
  rewrite required_env_missing. unfold main, init_client.
  rewrite load_config_result.
  destruct (forallb truthy _).
  - destruct (config_lookups (os_getenv environ "ENDPOINT")
                (os_getenv environ "ACCESS_KEY_ID")
                (os_getenv environ "ACCESS_KEY_SECRET")
                (os_getenv_default environ "REGION_NAME" "us-east-1"))
      as (-> & -> & -> & ->).
    assert (os_getenv_default environ "REGION_NAME" "us-east-1"
            = VStr (default "us-east-1" (environ !! "REGION_NAME"))) as ->
      by (unfold os_getenv_default; by destruct (environ !! "REGION_NAME")).
    fold (configured_args environ).
    split; [|intros _; by destruct (boto3_client _)].
    split; [done|]. by destruct (boto3_client _).
  - split; [done|]. intros H. by destruct H.
Qed.

(** ** The handlers over the key-value store *)

Section RoundTrip.
Context (b k : string).

Lemma object_args_get (path : string) :
  dict_get (object_args b k path) "bucket_name" = VStr b
  ∧ dict_get (object_args b k path) "key" = VStr k
  ∧ dict_get (object_args b k path) "path" = VStr path
  ∧ dict_get (object_args b k path) "version_id" = VNone.
Proof. by vm_compute. Qed.

Lemma object_args_requests (path : string) :
  put_request (object_args b k path) = {[ "Bucket" := VStr b; "Key" := VStr k ]}
  ∧ object_request (object_args b k path)
    = {[ "Bucket" := VStr b; "Key" := VStr k ]}.
Proof. by vm_compute. Qed.

Lemma kv_put_object (data : bytes) (w : KV.world) :
  KV.put_object {[ "Bucket" := VStr b; "Key" := VStr k ]} data w
  = match KV.fault w with
    | Some e => (Raise e, w)
    | None =>
        match KV.buckets w !! b with
        | Some objs => (Ok (), KV.set_bucket w b (<[k := data]> objs))
        | None => (Raise (ClientError "NoSuchBucket"), w)
        end
    end.
Proof.
  unfold KV.put_object, KV.param_str, KV.send, KV.the_bucket, KV.update.
  change (({[ "Bucket" := VStr b; "Key" := VStr k ]} : dict) !! "Bucket")
    with (Some (VStr b)).
  change (({[ "Bucket" := VStr b; "Key" := VStr k ]} : dict) !! "Key")
    with (Some (VStr k)).
  cbn. destruct (KV.fault w); [done|]. cbn.
  by destruct (KV.buckets w !! b).
Qed.

Lemma kv_get_object (w : KV.world) :
  KV.get_object {[ "Bucket" := VStr b; "Key" := VStr k ]} w
  = match KV.fault w with
    | Some e => (Raise e, w)
    | None =>
        match KV.buckets w !! b with
        | Some objs =>
            match objs !! k with
            | Some data => (Ok data, w)
            | None => (Raise (ClientError "NoSuchKey"), w)
            end
        | None => (Raise (ClientError "NoSuchBucket"), w)
        end
    end.
Proof.
  unfold KV.get_object, KV.param_str, KV.param_opt_str, KV.send, KV.the_bucket,
    KV.the_version, KV.query.
  change (({[ "Bucket" := VStr b; "Key" := VStr k ]} : dict) !! "Bucket")
    with (Some (VStr b)).
  change (({[ "Bucket" := VStr b; "Key" := VStr k ]} : dict) !! "Key")
    with (Some (VStr k)).
  change (({[ "Bucket" := VStr b; "Key" := VStr k ]} : dict) !! "VersionId")
    with (@None value).
  cbn. destruct (KV.fault w); [done|]. cbn.
  destruct (KV.buckets w !! b) as [objs|]; [|done]. cbn.
  by destruct (objs !! k).
Qed.

(** put-object on the store, case by case. *)
Lemma kv_put_handle (pin : string) (s : state KV.world) :
  handle (PutObjectHandler KV.client) "put-object" (Some (object_args b k pin)) s
  = match KV.files (world s) !! pin with
    | None => (Raise (OSError "FileNotFoundError"), State (world s) (calls s))
    | Some data =>
        match KV.fault (world s) with
        | Some e =>
            (if isinstance e ClientErrorC
             then Ok [text_content "Failed to put object"] else Raise e,
             State (world s) (calls s ++ [put_call b k data]))
        | None =>
            match KV.buckets (world s) !! b with
            | Some objs =>
                (Ok (saved k),
                 State (KV.set_bucket (world s) b (<[k := data]> objs))
                   (calls s ++ [put_call b k data]))
            | None =>
                (Ok [text_content "Failed to put object"],
                 State (world s) (calls s ++ [put_call b k data]))
            end
        end
    end.
Proof.
  destruct (object_args_get pin) as (_ & Hk & Hp & _).
  destruct (object_args_requests pin) as (Hr & _).
  unfold put_call.
  destruct (KV.files (world s) !! pin) as [data|] eqn:Hf.
  - assert (open_rb KV.client (dict_get (object_args b k pin) "path") (world s)
            = (Ok data, world s)) as Ho
      by (rewrite Hp; cbn; unfold KV.open_rb; by rewrite Hf).
    pose proof (kv_put_object data (world s)) as Hput. rewrite <- Hr in Hput.
    destruct (KV.fault (world s)) as [e|].
    + rewrite (put_object_raises _ _ _ _ _ _ _ Ho Hput). by rewrite Hr.
    + destruct (KV.buckets (world s) !! b) as [objs|].
      * rewrite (put_object_returns _ _ _ _ _ _ Ho Hput). by rewrite Hk, Hr.
      * rewrite (put_object_raises _ _ _ _ _ _ _ Ho Hput). by rewrite Hr.
  - assert (open_rb KV.client (dict_get (object_args b k pin) "path") (world s)
            = (Raise (OSError "FileNotFoundError"), world s)) as Ho
      by (rewrite Hp; cbn; unfold KV.open_rb; by rewrite Hf).
    by rewrite (put_object_open_raises _ _ _ _ _ Ho).
Qed.

(** A put-object that reports success found the bucket, with no fault
    injected, and stored the content of the file. *)
Lemma kv_put_saved (pin : string) (data : bytes) (s s1 : state KV.world) :
  KV.files (world s) !! pin = Some data →
  handle (PutObjectHandler KV.client) "put-object" (Some (object_args b k pin)) s
  = (Ok (saved k), s1) →
  ∃ objs,
    KV.fault (world s) = None
    ∧ KV.buckets (world s) !! b = Some objs
    ∧ s1 = State (KV.set_bucket (world s) b (<[k := data]> objs))
             (calls s ++ [put_call b k data]).
Proof.
  intros Hf. rewrite kv_put_handle, Hf.
  destruct (KV.fault (world s)) as [e|].
  - destruct (isinstance e ClientErrorC); [|done].
    intros H. by inversion H.
  - destruct (KV.buckets (world s) !! b) as [objs|].
    + intros [= <-]. by exists objs.
    + intros H. by inversion H.
Qed.

(** A second put of the same content leaves the store as it is. *)
Lemma kv_set_bucket_again (w : KV.world) (objs : gmap string bytes)
    (data : bytes) :
  KV.set_bucket (KV.set_bucket w b (<[k := data]> objs)) b
    (<[k := data]> (<[k := data]> objs))
  = KV.set_bucket w b (<[k := data]> objs).
Proof. unfold KV.set_bucket. cbn. by rewrite !insert_insert_eq. Qed.

Lemma kv_put_again (pin : string) (data : bytes) (w : KV.world)
    (objs : gmap string bytes) (s : state KV.world) :
  KV.files w !! pin = Some data →
  KV.fault w = None →
  world s = KV.set_bucket w b (<[k := data]> objs) →
  handle (PutObjectHandler KV.client) "put-object" (Some (object_args b k pin)) s
  = (Ok (saved k),
     State (KV.set_bucket w b (<[k := data]> objs))
       (calls s ++ [put_call b k data])).
Proof.
  intros Hf Hfault Hw. rewrite kv_put_handle, Hw. cbn.
  rewrite Hf, Hfault, lookup_insert_eq. by rewrite kv_set_bucket_again.
Qed.

Lemma kv_put_iterate (pin : string) (data : bytes) (w : KV.world)
    (objs : gmap string bytes) (n : nat) (s : state KV.world) :
  KV.files w !! pin = Some data →
  KV.fault w = None →
  world s = KV.set_bucket w b (<[k := data]> objs) →
  (iterate (handle (PutObjectHandler KV.client) "put-object"
              (Some (object_args b k pin))) n s).1
  = replicate n (Ok (saved k))
  ∧ world (iterate (handle (PutObjectHandler KV.client) "put-object"
                      (Some (object_args b k pin))) n s).2
    = world s.
Proof.
  intros Hf Hfault. revert s. induction n as [|n IH]; intros s Hw; [done|].
  cbn [iterate]. rewrite (kv_put_again pin data w objs s Hf Hfault Hw).
  destruct (IH (State (KV.set_bucket w b (<[k := data]> objs))
                  (calls s ++ [put_call b k data])) eq_refl) as [Hr Hs].
  destruct (iterate _ n _) as [rs sn]. cbn in *. by rewrite Hr, Hs, Hw.
Qed.

(** get-object on the store, when it reports success. *)
Lemma kv_get_saved (pout : string) (s s2 : state KV.world) :
  handle (GetObjectHandler KV.client) "get-object" (Some (object_args b k pout)) s
  = (Ok (saved k), s2) →
  ∃ data, object_body (world s) b k = Some data
          ∧ KV.files (world s2) !! pout = Some data.
Proof.
  intros Hsaved.
  destruct (object_args_get pout) as (_ & Hk & Hp & _).
  destruct (object_args_requests pout) as (_ & Hr).
  pose proof (kv_get_object (world s)) as Hget. rewrite <- Hr in Hget.
  unfold object_body.
  destruct (KV.fault (world s)) as [e|].
  { rewrite (get_object_raises KV.client _ _ _ _ Hget) in Hsaved.
    destruct (isinstance e ClientErrorC); by inversion Hsaved. }
  destruct (KV.buckets (world s) !! b) as [objs|].
  2:{ rewrite (get_object_raises KV.client _ _ _ _ Hget) in Hsaved.
      by inversion Hsaved. }
  destruct (objs !! k) as [data|] eqn:Hobj.
  2:{ rewrite (get_object_raises KV.client _ _ _ _ Hget) in Hsaved.
      by inversion Hsaved. }
  destruct (String.eqb pout "") eqn:Hpout.
  - assert (open_wb KV.client (dict_get (object_args b k pout) "path") (world s)
            = (Raise (OSError "FileNotFoundError"), world s)) as Ho
      by (rewrite Hp; cbn; unfold KV.open_wb; by rewrite Hpout).
    rewrite (get_object_open_raises KV.client _ _ _ _ _ _ Hget Ho) in Hsaved.
    by inversion Hsaved.
  - assert (open_wb KV.client (dict_get (object_args b k pout) "path") (world s)
            = (Ok (), KV.World (KV.buckets (world s))
                        (<[pout := []]> (KV.files (world s)))
                        (KV.fault (world s)))) as Ho
      by (rewrite Hp; cbn; unfold KV.open_wb; by rewrite Hpout).
    rewrite (get_object_returns KV.client _ _ data data _ _ _ _ Hget Ho eq_refl
               eq_refl) in Hsaved.
    apply (f_equal snd) in Hsaved. cbn in Hsaved. subst s2.
    exists data. split; [done|]. cbn. by rewrite lookup_insert_eq.
Qed.

(** C8.  Over the key-value store: when put-object of a local file holding
    [B] to [(b, k)] reports success and get-object of [(b, k)] to an output
    path then reports success, the output path holds exactly [B]; and the
    object body is [B] after the put-object and after any number of further
    runs of it, each of which reports success and leaves the store as it
    was. *)
Theorem put_get_round_trip (B : bytes) (pin pout : string) (n : nat)
    (s s1 s2 : state KV.world) :
  KV.files (world s) !! pin = Some B →
  handle (PutObjectHandler KV.client) "put-object" (Some (object_args b k pin)) s
  = (Ok (saved k), s1) →
  handle (GetObjectHandler KV.client) "get-object" (Some (object_args b k pout)) s1
  = (Ok (saved k), s2) →
  KV.files (world s2) !! pout = Some B
  ∧ object_body (world s1) b k = Some B
  ∧ (iterate (handle (PutObjectHandler KV.client) "put-object"
                (Some (object_args b k pin))) n s1).1
    = replicate n (Ok (saved k))
  ∧ object_body
      (world (iterate (handle (PutObjectHandler KV.client) "put-object"
                         (Some (object_args b k pin))) n s1).2) b k
    = Some B.
Proof.
  intros Hf Hput Hget.
  destruct (kv_put_saved pin B s s1 Hf Hput) as (objs & Hfault & Hb & ->).
  assert (object_body (KV.set_bucket (world s) b (<[k := B]> objs)) b k = Some B)
    as Hbody
    by (unfold object_body, KV.set_bucket; cbn;
        rewrite lookup_insert_eq; cbn; by rewrite lookup_insert_eq).
  destruct (kv_get_saved pout _ s2 Hget) as (data & Hd & Hout).
  cbn in Hd. rewrite Hbody in Hd. injection Hd as <-.
  destruct (kv_put_iterate pin B (world s) objs n
              (State (KV.set_bucket (world s) b (<[k := B]> objs))
                 (calls s ++ [put_call b k B])) Hf Hfault eq_refl)
    as [Hrs Hws].
  by rewrite Hrs, Hws.
Qed.

End RoundTrip.

(** ** The statements at concrete inputs *)

(** Dispatch of a registered and of an unregistered name. *)
Lemma handle_call_tool_dispatch_witness :
  handle_call_tool KV.client "list-buckets" (Some ∅) (start sample_world)
  = handle (ListBucketsHandler KV.client) "list-buckets" (Some ∅)
      (start sample_world)
  ∧ handle_call_tool KV.client "no-such-tool" (Some ∅) (start sample_world)
    = (Raise (ValueError "Unknown tool: no-such-tool"), start sample_world).
Proof.
  split.
  - destruct (handle_call_tool_dispatch KV.client "list-buckets" (Some ∅)
                (start sample_world)) as (_ & _ & _ & H & _).
    apply H. constructor.
  - destruct (handle_call_tool_dispatch KV.client "no-such-tool" (Some ∅)
                (start sample_world)) as (_ & _ & _ & _ & H).
    apply H. apply (bool_decide_unpack (_ ∉ _)). vm_compute. exact I.
Defined.

(** exists-bucket when the service cannot be reached: the probe fails with
    a connection error, and the handler raises it where the text
    [Bucket b not exists] was to be returned. *)
Lemma exists_bucket_offline_raises :
  handle (ExistsBucketHandler KV.client) "exists-bucket" (Some (bucket_args "b"))
    (start offline_world)
  = (Raise (BotoCoreError "EndpointConnectionError"),
     State offline_world [Call op_head_bucket {[ "Bucket" := VStr "b" ]} None]).
Proof. by vm_compute. Qed.

(** exists-bucket on a bucket that is there, on one that is not, on one
    the credentials may not see, and with the service out of reach. *)
Lemma exists_bucket_result_witness :
  handle (ExistsBucketHandler KV.client) "exists-bucket" (Some (bucket_args "b"))
    (start sample_world)
  = (Ok [text_content "Bucket b exists"],
     State sample_world [Call op_head_bucket {[ "Bucket" := VStr "b" ]} None])
  ∧ handle (ExistsBucketHandler KV.client) "exists-bucket"
      (Some (bucket_args "c")) (start sample_world)
    = (Ok [text_content "Bucket c not exists"],
       State sample_world [Call op_head_bucket {[ "Bucket" := VStr "c" ]} None])
  ∧ handle (ExistsBucketHandler KV.client) "exists-bucket"
      (Some (bucket_args "b")) (start denied_world)
    = (Ok [text_content "Bucket b not exists"],
       State denied_world [Call op_head_bucket {[ "Bucket" := VStr "b" ]} None])
  ∧ handle (ExistsBucketHandler KV.client) "exists-bucket"
      (Some (bucket_args "b")) (start offline_world)
    = (Raise (BotoCoreError "EndpointConnectionError"),
       State offline_world [Call op_head_bucket {[ "Bucket" := VStr "b" ]} None]).
Proof.
  split; [|split; [|split]].
  - destruct (exists_bucket_result KV.client (bucket_args "b") (VStr "b")
                (start sample_world) eq_refl) as (H & _ & _).
    by apply H.
  - destruct (exists_bucket_result KV.client (bucket_args "c") (VStr "c")
                (start sample_world) eq_refl) as (_ & H & _).
    by apply (H "404").
  - destruct (exists_bucket_result KV.client (bucket_args "b") (VStr "b")
                (start denied_world) eq_refl) as (_ & H & _).
    by apply (H "AccessDenied").
  - destruct (exists_bucket_result KV.client (bucket_args "b") (VStr "b")
                (start offline_world) eq_refl) as (_ & _ & H).
    by apply (H (BotoCoreError "EndpointConnectionError")).
Defined.

(** A mapping that holds [prefix] with the value null: the key is present,
    and the request carries no [Prefix]. *)
Lemma list_objects_null_prefix_not_sent :
  null_prefix_args !! "prefix" = Some VNone
  ∧ calls (handle (ListObjectsHandler KV.client) "list-objects"
             (Some null_prefix_args) (start sample_world)).2
    = [Call op_list_objects_v2
         {[ "Bucket" := VStr "b"; "MaxKeys" := VInt 1000 ]} None]
  ∧ ({[ "Bucket" := VStr "b"; "MaxKeys" := VInt 1000 ]} : dict) !! "Prefix"
    = None.
Proof. by vm_compute. Qed.

Lemma list_objects_request_sent_witness :
  ∃ kw : dict,
    calls (handle (ListObjectsHandler KV.client) "list-objects"
             (Some null_prefix_args) (start sample_world)).2
    = calls (start sample_world) ++ [Call op_list_objects_v2 kw None]
    ∧ kw !! "Bucket" = Some (dict_get null_prefix_args "bucket_name")
    ∧ (∀ k K, (k, K) ∈ list_objects_optionals →
         kw !! K = passed null_prefix_args k
         ∧ (is_Some (kw !! K) ↔ ∃ v, null_prefix_args !! k = Some v ∧ v ≠ VNone))
    ∧ (null_prefix_args !! "max_keys" = None →
       kw !! "MaxKeys" = Some (VInt 1000)).
Proof.
  exact (list_objects_request_sent KV.client null_prefix_args (start sample_world)).
Defined.

(** list-objects on the empty bucket [b]. *)
Lemma list_objects_missing_Contents_witness :
  handle (ListObjectsHandler KV.client) "list-objects" (Some (bucket_args "b"))
    (start sample_world)
  = (Raise (KeyError "Contents"),
     State sample_world
       [Call op_list_objects_v2
          {[ "Bucket" := VStr "b"; "MaxKeys" := VInt 1000 ]} None]).
Proof.
  apply (list_objects_missing_Contents KV.client (bucket_args "b")
           (start sample_world) sample_world).
  vm_compute. reflexivity.
Defined.

(** exists-bucket without [bucket_name]: the argument is required, the
    mapping omits it, and [head_bucket] is called all the same. *)
Lemma exists_bucket_without_name_calls_head_bucket :
  "bucket_name" ∈ required_args "exists-bucket"
  ∧ (∅ : dict) !! "bucket_name" = None
  ∧ handle (ExistsBucketHandler KV.client) "exists-bucket" (Some ∅)
      (start sample_world)
    = (Raise (BotoCoreError "ParamValidationError"),
       State sample_world [Call op_head_bucket {[ "Bucket" := VNone ]} None]).
Proof. split; [|split]; [constructor | reflexivity | by vm_compute]. Qed.

Lemma required_arguments_not_checked_witness :
  handle (ExistsBucketHandler KV.client) "exists-bucket" (Some ∅)
    (start sample_world)
  = handle (ExistsBucketHandler KV.client) "exists-bucket"
      (Some (<["bucket_name" := VNone]> ∅)) (start sample_world)
  ∧ ∃ c, calls (handle (ExistsBucketHandler KV.client) "exists-bucket" (Some ∅)
                  (start sample_world)).2
         = calls (start sample_world) ++ [c]
         ∧ kwargs c !! "Bucket" = Some VNone.
Proof.
  destruct (required_arguments_not_checked KV.client ∅ (start sample_world))
    as [Hnull Hcall].
  split.
  - apply Hnull; [| constructor | reflexivity].
    do 3 apply list_elem_of_further. constructor.
  - destruct (Hcall eq_refl) as [H _].
    apply H; [| discriminate | discriminate].
    do 3 apply list_elem_of_further. constructor.
Defined.

(** put-object of a local file that does not exist, and put-object against
    rejected credentials: an exception in one case, the failure text in the
    other. *)
Lemma put_object_missing_file_raises :
  handle (PutObjectHandler KV.client) "put-object"
    (Some (object_args "b" "k" "/tmp/none")) (start sample_world)
  = (Raise (OSError "FileNotFoundError"), start sample_world)
  ∧ handle (PutObjectHandler KV.client) "put-object"
      (Some (object_args "b" "k" "/tmp/in")) (start denied_world)
    = (Ok [text_content "Failed to put object"],
       State denied_world [put_call "b" "k" XYZ])
  ∧ handle (GetObjectHandler KV.client) "get-object"
      (Some (object_args "b" "k" "")) (start stored_world)
    = (Raise (OSError "FileNotFoundError"),
       State stored_world
         [Call op_get_object {[ "Bucket" := VStr "b"; "Key" := VStr "k" ]} None]).
Proof. by vm_compute. Qed.

(** A file that is not there, an output path that cannot be opened, and
    rejected credentials. *)
Lemma local_io_failure_propagates_witness :
  handle (PutObjectHandler KV.client) "put-object"
    (Some (object_args "b" "k" "/tmp/none")) (start sample_world)
  = (Raise (OSError "FileNotFoundError"), State sample_world [])
  ∧ handle (GetObjectHandler KV.client) "get-object"
      (Some (object_args "b" "k" "")) (start stored_world)
    = (Raise (OSError "FileNotFoundError"),
       State stored_world
         [Call op_get_object (object_request (object_args "b" "k" "")) None])
  ∧ handle (PutObjectHandler KV.client) "put-object"
      (Some (object_args "b" "k" "/tmp/in")) (start denied_world)
    = (Ok [text_content "Failed to put object"],
       State denied_world
         [Call op_put_object (put_request (object_args "b" "k" "/tmp/in"))
            (Some XYZ)]).
Proof.
  split; [|split].
  - destruct (local_io_failure_propagates KV.client
                (object_args "b" "k" "/tmp/none") (start sample_world)
                (OSError "FileNotFoundError") eq_refl) as [H _].
    apply H. reflexivity.
  - destruct (local_io_failure_propagates KV.client
                (object_args "b" "k" "") (start stored_world)
                (OSError "FileNotFoundError") eq_refl) as (_ & _ & H & _).
    apply (H XYZ stored_world stored_world); reflexivity.
  - destruct (local_io_failure_propagates KV.client
                (object_args "b" "k" "/tmp/in") (start denied_world)
                (OSError "FileNotFoundError") eq_refl)
      as (_ & _ & _ & _ & _ & H & _).
    apply (H "AccessDenied" XYZ denied_world denied_world); reflexivity.
Defined.

(** Startup with [ENDPOINT] set to the empty string: no required variable is
    unset, and startup dies all the same. *)
Lemma startup_empty_endpoint_dies :
  empty_endpoint_environ !! "ENDPOINT" = Some ""
  ∧ empty_endpoint_environ !! "ACCESS_KEY_ID" = Some "id"
  ∧ empty_endpoint_environ !! "ACCESS_KEY_SECRET" = Some "secret"
  ∧ main KV.boto3_client empty_endpoint_environ
    = Died (ValueError "Missing required configuration") (Globals None []).
Proof. by vm_compute. Qed.

(** Startup with an empty endpoint, with a complete environment, and with
    an endpoint that is no url. *)
Lemma startup_configuration_witness :
  main KV.boto3_client empty_endpoint_environ
  = Died (ValueError "Missing required configuration") (Globals None [])
  ∧ main KV.boto3_client complete_environ
    = Serving (Globals (Some (configured_args complete_environ))
                 [configured_args complete_environ])
  ∧ client_kwargs (configured_args complete_environ) !! "region_name"
    = Some (VStr "us-east-1")
  ∧ main KV.boto3_client bad_endpoint_environ
    = Died (ValueError "Invalid endpoint: localhost:9000")
        (Globals None [configured_args bad_endpoint_environ]).
Proof.
  split; [|split; [|split]].
  - apply (startup_configuration KV.boto3_client empty_endpoint_environ).
    exists "ENDPOINT". split; [constructor | by right].
  - destruct (startup_configuration KV.boto3_client complete_environ) as [_ H].
    rewrite H; [reflexivity|].
    by apply (required_env_all_set _ "http://localhost:9000" "id" "secret").
  - reflexivity.
  - destruct (startup_configuration KV.boto3_client bad_endpoint_environ)
      as [_ H].
    rewrite H; [reflexivity|].
    by apply (required_env_all_set _ "localhost:9000" "id" "secret").
Defined.

(** C2.  list-buckets, create-bucket and delete-bucket against rejected
    credentials: the [ClientError] of the storage call is not an instance of
    the [RuntimeError] their [except] clause names, and leaves the handler
    instead of becoming its failure text. *)
Theorem bucket_handlers_ClientError_escapes :
  handle (ListBucketsHandler KV.client) "list-buckets" (Some ∅)
    (start denied_world)
  = (Raise (ClientError "AccessDenied"),
     State denied_world [Call op_list_buckets ∅ None])
  ∧ handle (CreateBucketHandler KV.client) "create-bucket"
      (Some (bucket_args "t1")) (start denied_world)
    = (Raise (ClientError "AccessDenied"),
       State denied_world
         [Call op_create_bucket {[ "Bucket" := VStr "t1" ]} None])
  ∧ handle (DeleteBucketHandler KV.client) "delete-bucket"
      (Some (bucket_args "b")) (start denied_world)
    = (Raise (ClientError "AccessDenied"),
       State denied_world
         [Call op_delete_bucket {[ "Bucket" := VStr "b" ]} None]).
Proof.
  split; [|split].
  - by rewrite (list_buckets_raises KV.client (Some ∅) (start denied_world)
                  (ClientError "AccessDenied") denied_world eq_refl).
  - by rewrite (create_bucket_raises KV.client (bucket_args "t1")
                  (start denied_world) (ClientError "AccessDenied")
                  denied_world eq_refl).
  - by rewrite (delete_bucket_raises KV.client (bucket_args "b")
                  (start denied_world) (ClientError "AccessDenied")
                  denied_world eq_refl).
Qed.

(** C6.  Resource listing against rejected credentials: the [ClientError] of
    [list_buckets] is not an instance of [RuntimeError]; it reaches the
    caller, where the empty list was to be returned. *)
Theorem list_resources_ClientError_escapes :
  list_resources KV.client (start denied_world)
  = (Raise (ClientError "AccessDenied"),
     State denied_world [Call op_list_buckets ∅ None]).
Proof.
  by rewrite (list_resources_raises KV.client (start denied_world)
                (ClientError "AccessDenied") denied_world eq_refl).
Qed.

(** Resource listing when the listing succeeds. *)
Example list_resources_sample :
  (list_resources KV.client (start sample_world)).1
  = Ok [ {| Resource.uri := "s3://b"; Resource.name := "Bucket: b";
            Resource.mimeType := "text/plain";
            Resource.description := "Data in bucket: b" |} ].
Proof. by vm_compute. Qed.

(** The scenario of the specification: [XYZ] put from [/tmp/in] and fetched
    to [/tmp/out], then put three more times. *)
Lemma put_get_round_trip_witness :
  KV.files
    (world
       (handle (GetObjectHandler KV.client) "get-object"
          (Some (object_args "b" "k" "/tmp/out"))
          (handle (PutObjectHandler KV.client) "put-object"
             (Some (object_args "b" "k" "/tmp/in")) (start sample_world)).2).2)
    !! "/tmp/out"
  = Some XYZ
  ∧ object_body
      (world
         (iterate (handle (PutObjectHandler KV.client) "put-object"
                     (Some (object_args "b" "k" "/tmp/in"))) 3
            (handle (PutObjectHandler KV.client) "put-object"
               (Some (object_args "b" "k" "/tmp/in")) (start sample_world)).2).2)
      "b" "k"
    = Some XYZ.
Proof.
  destruct (put_get_round_trip "b" "k" XYZ "/tmp/in" "/tmp/out" 3
              (start sample_world)
              (handle (PutObjectHandler KV.client) "put-object"
                 (Some (object_args "b" "k" "/tmp/in")) (start sample_world)).2
              (handle (GetObjectHandler KV.client) "get-object"
                 (Some (object_args "b" "k" "/tmp/out"))
                 (handle (PutObjectHandler KV.client) "put-object"
                    (Some (object_args "b" "k" "/tmp/in"))
                    (start sample_world)).2).2)
    as (Hout & _ & _ & Hbody).
  - reflexivity.
  - vm_compute. reflexivity.
  - vm_compute. reflexivity.
  - split; [exact Hout | exact Hbody].
Defined.

(** ** Further properties of the module *)

Section MoreProperties.
Context {W : Type} (client : S3Client W).

(** *** Catalog and registry *)

(** X1.  The catalog of [handle_list_tools] and the registry [tool_handlers] are
    two separate tables.  They agree: the catalog names no tool twice, and a
    name is in the catalog if and only if the registry has a handler for
    it. *)
Theorem catalog_matches_registry (name : string) :
  NoDup tool_names
  ∧ (name ∈ tool_names ↔ is_Some (tool_handlers client !! name)).
Proof.
  split; [by apply (bool_decide_unpack (NoDup _))|].
  split.
  - intros Hin. apply (tool_names_registered client) in Hin.
    apply list_elem_of_fmap in Hin as ([n h] & -> & Hin).
    exists h. by apply tool_handlers_lookup.
  - intros [h Hh]. destruct (decide (name ∈ tool_names)) as [|Hn]; [done|].
    by rewrite (tool_handlers_unknown client name Hn) in Hh.
Qed.

(** X2.  Every argument a descriptor declares required is one of the properties
    of its schema. *)
Theorem required_arguments_declared (t : Tool.t) (r : string) :
  t ∈ handle_list_tools →
  r ∈ Tool.required (Tool.inputSchema t) →
  r ∈ Tool.prop_name <$> Tool.properties (Tool.inputSchema t).
Proof.
  unfold handle_list_tools. rewrite !elem_of_cons, elem_of_nil.
  intros Ht. destruct_or? Ht; try done; subst t; cbn;
    rewrite ?elem_of_cons, ?elem_of_nil; tauto.
Qed.

(** *** Arguments that are [None] *)

Lemma handler_None_raises (tool : string) (h : ToolHandler W) (s : state W) :
  (tool, h) ∈ tool_handlers_items client →
  tool ≠ "list-buckets" →
  handle h tool None s
  = (Raise (AttributeError "'NoneType' object has no attribute 'get'"), s).
Proof.
  unfold tool_handlers_items. rewrite !elem_of_cons, elem_of_nil.
  intros Hin Hlb. destruct_or? Hin; try done; simplify_eq; reflexivity.
Qed.

(** X3.  A call of a catalogued tool other than list-buckets with [args = None]
    raises [AttributeError]: the handler reads its arguments with
    [args.get], and no [except] clause of the module catches the error.  The
    state is left as it was, so no client call is made. *)
Theorem handle_call_tool_None_raises (tool : string) (s : state W) :
  tool ∈ tool_names →
  tool ≠ "list-buckets" →
  handle_call_tool client tool None s
  = (Raise (AttributeError "'NoneType' object has no attribute 'get'"), s).
Proof.
  intros Hin Hlb. destruct (tool_handlers_registered client tool Hin) as (h & Hh & Hl).
  unfold handle_call_tool. rewrite Hl. by apply handler_None_raises.
Qed.

(** *** Arguments a descriptor does not declare *)

Lemma dict_get_default_insert_ne (d : dict) (k k' : string) (v dflt : value) :
  k ≠ k' →
  dict_get_default (<[k := v]> d) k' dflt = dict_get_default d k' dflt.
Proof. intros Hne. unfold dict_get_default. by rewrite lookup_insert_ne. Qed.

Lemma handler_ignores_undeclared (tool k : string) (h : ToolHandler W)
    (v : value) (d : dict) (s : state W) :
  (tool, h) ∈ tool_handlers_items client →
  k ∉ declared_args tool →
  handle h tool (Some (<[k := v]> d)) s = handle h tool (Some d) s.
Proof.
  unfold tool_handlers_items. rewrite !elem_of_cons, elem_of_nil.
  intros Hin Hk. destruct_or? Hin; try done; simplify_eq;
    set (r := declared_args _) in Hk; vm_compute in r; subst r;
    rewrite ?not_elem_of_cons in Hk; destruct_and? Hk;
    py_unfold; rewrite ?dict_get_default_insert_ne by done; reflexivity.
Qed.

(** X4.  A tool call reads only the arguments the descriptor of the tool
    declares: adding or changing any other key of the mapping changes
    neither the result of the call nor its effects. *)
Theorem undeclared_arguments_ignored (tool k : string) (v : value) (d : dict)
    (s : state W) :
  k ∉ declared_args tool →
  handle_call_tool client tool (Some (<[k := v]> d)) s
  = handle_call_tool client tool (Some d) s.
Proof.
  intros Hk. destruct (decide (tool ∈ tool_names)) as [Hin|Hn].
  - destruct (tool_handlers_registered client tool Hin) as (h & Hh & Hl).
    unfold handle_call_tool. rewrite Hl. by apply handler_ignores_undeclared.
  - unfold handle_call_tool. by rewrite (tool_handlers_unknown client tool Hn).
Qed.

(** *** Effects *)

(** X5.  Seven handlers have one effect only: their one client call.  Whatever
    the call returns or raises, the state after the handler is the world the
    call left, with that one call added to the log; nothing else is called
    and no local file is touched. *)
Theorem handler_effect_is_one_client_call (args : option dict) (d : dict)
    (s : state W) :
  (handle (ListBucketsHandler client) "list-buckets" args s).2
  = State (list_buckets client (world s)).2
      (calls s ++ [Call op_list_buckets ∅ None])
  ∧ (handle (ExistsBucketHandler client) "exists-bucket" (Some d) s).2
    = State (head_bucket client {[ "Bucket" := dict_get d "bucket_name" ]}
               (world s)).2
        (calls s ++ [Call op_head_bucket
                       {[ "Bucket" := dict_get d "bucket_name" ]} None])
  ∧ (handle (CreateBucketHandler client) "create-bucket" (Some d) s).2
    = State (create_bucket client {[ "Bucket" := dict_get d "bucket_name" ]}
               (world s)).2
        (calls s ++ [Call op_create_bucket
                       {[ "Bucket" := dict_get d "bucket_name" ]} None])
  ∧ (handle (DeleteBucketHandler client) "delete-bucket" (Some d) s).2
    = State (delete_bucket client {[ "Bucket" := dict_get d "bucket_name" ]}
               (world s)).2
        (calls s ++ [Call op_delete_bucket
                       {[ "Bucket" := dict_get d "bucket_name" ]} None])
  ∧ (handle (ListObjectsHandler client) "list-objects" (Some d) s).2
    = State (list_objects_v2 client (list_objects_request d) (world s)).2
        (calls s ++ [Call op_list_objects_v2 (list_objects_request d) None])
  ∧ (handle (DeleteObjectHandler client) "delete-object" (Some d) s).2
    = State (delete_object client (object_request d) (world s)).2
        (calls s ++ [Call op_delete_object (object_request d) None])
  ∧ (handle (GetObjectMetadataHandler client) "get-object-metadata"
       (Some d) s).2
    = State (head_object client (object_request d) (world s)).2
        (calls s ++ [Call op_head_object (object_request d) None]).
Proof.
  repeat split; py_unfold;
    unfold list_objects_request, object_request, dict_get.
  - destruct (list_buckets client (world s)) as [[r|e] w']; cbn; [done|].
    by destruct (isinstance e _).
  - destruct (head_bucket client _ (world s)) as [[r|e] w']; cbn; [done|].
    by destruct (isinstance e _).
  - destruct (create_bucket client _ (world s)) as [[r|e] w']; cbn; [done|].
    by destruct (isinstance e _).
  - destruct (delete_bucket client _ (world s)) as [[r|e] w']; cbn; [done|].
    by destruct (isinstance e _).
  - destruct (list_objects_v2 client _ (world s)) as [[[[objs|]]|e] w']; cbn;
      [done|done|]. by destruct (isinstance e _).
  - destruct (delete_object client _ (world s)) as [[r|e] w']; cbn; [done|].
    by destruct (isinstance e _).
  - destruct (head_object client _ (world s)) as [[r|e] w']; cbn; [done|].
    by destruct (isinstance e _).
Qed.

(** X6.  get-object fetches, opens, reads and writes, in this order.  The
    output path is opened, which creates or truncates it, only when
    [get_object] has returned; the body is read only when the path has
    opened; what is written is exactly the body that was read.  When
    [get_object] raises, no file operation runs; when the path does not
    open, the body is not read; when reading the body fails, the path has
    been opened and nothing is written to it. *)
Theorem get_object_effects (d : dict) (s : state W) :
  (handle (GetObjectHandler client) "get-object" (Some d) s).2
  = match get_object client (object_request d) (world s) with
    | (Raise _, w1) =>
        State w1 (calls s ++ [Call op_get_object (object_request d) None])
    | (Ok response, w1) =>
        match open_wb client (dict_get d "path") w1 with
        | (Raise _, w2) =>
            State w2 (calls s ++ [Call op_get_object (object_request d) None])
        | (Ok _, w2) =>
            match body_read client response w2 with
            | (Raise _, w3) =>
                State w3
                  (calls s ++ [Call op_get_object (object_request d) None])
            | (Ok data, w3) =>
                State (file_write client (dict_get d "path") data w3).2
                  (calls s ++ [Call op_get_object (object_request d) None])
            end
        end
    end.
Proof.
  py_unfold. unfold object_request, dict_get.
  destruct (get_object client _ (world s)) as [[response|e] w1]; cbn;
    [|by destruct (isinstance e _)].
  destruct (open_wb client _ w1) as [[r|e] w2]; cbn;
    [|by destruct (isinstance e _)].
  destruct (body_read client response w2) as [[data|e] w3]; cbn;
    [|by destruct (isinstance e _)].
  destruct (file_write client _ data w3) as [[r'|e] w']; cbn; [done|].
  by destruct (isinstance e _).
Qed.

(** X7.  put-object opens first and sends second: [put_object] is called only
    when the local file has opened, with exactly its content as [Body];
    when [open] raises, the client is not called at all.  No file is ever
    written. *)
Theorem put_object_effects (d : dict) (s : state W) :
  (handle (PutObjectHandler client) "put-object" (Some d) s).2
  = match open_rb client (dict_get d "path") (world s) with
    | (Ok f, w1) =>
        State (put_object client (put_request d) f w1).2
          (calls s ++ [Call op_put_object (put_request d) (Some f)])
    | (Raise _, w1) => State w1 (calls s)
    end.
Proof.
  py_unfold. unfold put_request, dict_get.
  destruct (open_rb client _ (world s)) as [[f|e] w1]; cbn.
  - destruct (put_object client _ f w1) as [[r|e] w']; cbn; [done|].
    by destruct (isinstance e _).
  - by destruct (isinstance e _).
Qed.

(** X8.  No tool call, whatever the name and the arguments, issues more than one
    client call: the log after the call is the log before it, followed by at
    most one entry. *)
Theorem at_most_one_client_call (name : string) (args : option dict)
    (s : state W) :
  ∃ l, calls (handle_call_tool client name args s).2 = calls s ++ l
       ∧ (length l ≤ 1)%nat.
Proof.
  destruct (decide (name ∈ tool_names)) as [Hin|Hn].
  2:{ unfold handle_call_tool. rewrite (tool_handlers_unknown client name Hn).
      exists []. split; [by rewrite app_nil_r | cbn; lia]. }
  destruct (tool_handlers_registered client name Hin) as (h & Hh & Hl).
  unfold handle_call_tool. rewrite Hl. clear Hl Hin.
  destruct (decide (name = "list-buckets")) as [->|Hlb].
  { unfold tool_handlers_items in Hh. rewrite !elem_of_cons, elem_of_nil in Hh.
    destruct_or? Hh; try done; simplify_eq.
    eexists. split; [apply list_buckets_handle_calls | cbn; lia]. }
  destruct args as [d|].
  2:{ rewrite (handler_None_raises name h s Hh Hlb).
      exists []. split; [by rewrite app_nil_r | cbn; lia]. }
  unfold tool_handlers_items in Hh. rewrite !elem_of_cons, elem_of_nil in Hh.
  destruct_or? Hh; try done; simplify_eq.
  - eexists. split; [apply create_bucket_handle_calls | cbn; lia].
  - eexists. split; [apply delete_bucket_handle_calls | cbn; lia].
  - eexists. split; [apply exists_bucket_handle_calls | cbn; lia].
  - eexists. split; [apply list_objects_handle_calls | cbn; lia].
  - eexists. split; [apply get_object_handle_calls | cbn; lia].
  - destruct (open_rb client (dict_get d "path") (world s)) as [[f|e] w1] eqn:Ho.
    + eexists. split; [by apply (put_object_handle_calls client d s f w1)|].
      cbn; lia.
    + rewrite (put_object_open_raises client d s e w1 Ho). cbn.
      exists []. split; [by rewrite app_nil_r | cbn; lia].
  - eexists. split; [apply delete_object_handle_calls | cbn; lia].
  - eexists. split; [apply get_object_metadata_handle_calls | cbn; lia].
Qed.

(** *** What the [except ClientError] clauses catch *)

(** X9.  In the six handlers whose clause names [ClientError], a [ClientError]
    of the storage call, whatever its code, becomes the one block with the
    handler's failure text, and any other exception of the storage call
    leaves the handler unchanged. *)
Theorem storage_failure_of_ClientError_handlers (d : dict) (s : state W)
    (e : exn) (w' : W) :
  let outcome (text : string) : result (list TextContent) :=
    if isinstance e ClientErrorC then Ok [text_content text] else Raise e in
  (head_bucket client {[ "Bucket" := dict_get d "bucket_name" ]} (world s)
   = (Raise e, w') →
   (handle (ExistsBucketHandler client) "exists-bucket" (Some d) s).1
   = outcome ("Bucket " +:+ py_str (dict_get d "bucket_name") +:+ " not exists"))
  ∧ (list_objects_v2 client (list_objects_request d) (world s) = (Raise e, w') →
     (handle (ListObjectsHandler client) "list-objects" (Some d) s).1
     = outcome "Failed to list objects")
  ∧ (get_object client (object_request d) (world s) = (Raise e, w') →
     (handle (GetObjectHandler client) "get-object" (Some d) s).1
     = outcome "Failed to get object")
  ∧ (∀ f w1, open_rb client (dict_get d "path") (world s) = (Ok f, w1) →
             put_object client (put_request d) f w1 = (Raise e, w') →
             (handle (PutObjectHandler client) "put-object" (Some d) s).1
             = outcome "Failed to put object")
  ∧ (delete_object client (object_request d) (world s) = (Raise e, w') →
     (handle (DeleteObjectHandler client) "delete-object" (Some d) s).1
     = outcome "Failed to delete object")
  ∧ (head_object client (object_request d) (world s) = (Raise e, w') →
     (handle (GetObjectMetadataHandler client) "get-object-metadata"
        (Some d) s).1
     = outcome "Failed to get object metadata").
Proof.
  cbv zeta. repeat split.
  - intros H. by rewrite (exists_bucket_raises client _ _ _ _ H).
  - intros H. by rewrite (list_objects_raises client _ _ _ _ H).
  - intros H. by rewrite (get_object_raises client _ _ _ _ H).
  - intros f w1 Ho H. by rewrite (put_object_raises client _ _ _ _ _ _ Ho H).
  - intros H. by rewrite (delete_object_raises client _ _ _ _ H).
  - intros H. by rewrite (get_object_metadata_raises client _ _ _ _ H).
Qed.

(** *** Results when the storage call returns *)

Lemma list_buckets_returns (args : option dict) (s : state W)
    (r : ListBucketsOutput) (w' : W) :
  list_buckets client (world s) = (Ok r, w') →
  handle (ListBucketsHandler client) "list-buckets" args s
  = (Ok ((λ bucket, text_content ("Bucket: " +:+ Name bucket)) <$> Buckets r),
     State w' (calls s ++ [Call op_list_buckets ∅ None])).
Proof. intros Hc. py_unfold. by rewrite Hc. Qed.

Lemma exists_bucket_returns (d : dict) (s : state W) (w' : W) :
  head_bucket client {[ "Bucket" := dict_get d "bucket_name" ]} (world s)
  = (Ok (), w') →
  handle (ExistsBucketHandler client) "exists-bucket" (Some d) s
  = (Ok [text_content
           ("Bucket " +:+ py_str (dict_get d "bucket_name") +:+ " exists")],
     State w' (calls s ++ [Call op_head_bucket
                             {[ "Bucket" := dict_get d "bucket_name" ]} None])).
Proof. intros Hc. py_unfold. unfold dict_get in *. by rewrite Hc. Qed.

Lemma create_bucket_returns (d : dict) (s : state W) (w' : W) :
  create_bucket client {[ "Bucket" := dict_get d "bucket_name" ]} (world s)
  = (Ok (), w') →
  handle (CreateBucketHandler client) "create-bucket" (Some d) s
  = (Ok [text_content
           ("Bucket " +:+ py_str (dict_get d "bucket_name")
            +:+ " created successfully")],
     State w' (calls s ++ [Call op_create_bucket
                             {[ "Bucket" := dict_get d "bucket_name" ]} None])).
Proof. intros Hc. py_unfold. unfold dict_get in *. by rewrite Hc. Qed.

Lemma delete_bucket_returns (d : dict) (s : state W) (w' : W) :
  delete_bucket client {[ "Bucket" := dict_get d "bucket_name" ]} (world s)
  = (Ok (), w') →
  handle (DeleteBucketHandler client) "delete-bucket" (Some d) s
  = (Ok [text_content
           ("Bucket " +:+ py_str (dict_get d "bucket_name")
            +:+ " deleted successfully")],
     State w' (calls s ++ [Call op_delete_bucket
                             {[ "Bucket" := dict_get d "bucket_name" ]} None])).
Proof. intros Hc. py_unfold. unfold dict_get in *. by rewrite Hc. Qed.

Lemma delete_object_returns (d : dict) (s : state W) (w' : W) :
  delete_object client (object_request d) (world s) = (Ok (), w') →
  handle (DeleteObjectHandler client) "delete-object" (Some d) s
  = (Ok [text_content
           ("Object " +:+ py_str (dict_get d "key") +:+ " deleted successfully")],
     State w' (calls s ++ [Call op_delete_object (object_request d) None])).
Proof.
  intros Hc. py_unfold. unfold object_request, dict_get in *. by rewrite Hc.
Qed.

Lemma get_object_metadata_returns (d : dict) (s : state W)
    (obj : HeadObjectOutput) (w' : W) :
  head_object client (object_request d) (world s) = (Ok obj, w') →
  handle (GetObjectMetadataHandler client) "get-object-metadata" (Some d) s
  = (Ok [text_content
           ("Metadata[content_type=" +:+ get_or (ContentType obj) ""
            +:+ ", content_length=" +:+ get_or (ContentLength obj) ""
            +:+ ",last_modified=" +:+ get_or (LastModified obj) "" +:+ "]")],
     State w' (calls s ++ [Call op_head_object (object_request d) None])).
Proof.
  intros Hc. py_unfold. unfold object_request, dict_get in *. by rewrite Hc.
Qed.

Lemma string_app_inv_head (s a b : string) : s +:+ a = s +:+ b → a = b.
Proof. induction s as [|c s IH]; cbn; [done|]. intros [= H]. by apply IH. Qed.

(** X10.  A handler whose storage call returned (and, for get-object, whose file
    was written) never answers with its failure text: the text that reports
    a failure cannot be mistaken for a success. *)
Theorem success_is_not_failure_text (args : option dict) (d : dict)
    (s : state W) (w' : W) :
  (∀ r, list_buckets client (world s) = (Ok r, w') →
        (handle (ListBucketsHandler client) "list-buckets" args s).1
        ≠ Ok [text_content "Failed to list buckets"])
  ∧ (head_bucket client {[ "Bucket" := dict_get d "bucket_name" ]} (world s)
     = (Ok (), w') →
     (handle (ExistsBucketHandler client) "exists-bucket" (Some d) s).1
     ≠ Ok [text_content
             ("Bucket " +:+ py_str (dict_get d "bucket_name") +:+ " not exists")])
  ∧ (create_bucket client {[ "Bucket" := dict_get d "bucket_name" ]} (world s)
     = (Ok (), w') →
     (handle (CreateBucketHandler client) "create-bucket" (Some d) s).1
     ≠ Ok [text_content "Failed to create bucket"])
  ∧ (delete_bucket client {[ "Bucket" := dict_get d "bucket_name" ]} (world s)
     = (Ok (), w') →
     (handle (DeleteBucketHandler client) "delete-bucket" (Some d) s).1
     ≠ Ok [text_content "Failed to delete bucket"])
  ∧ (∀ r, list_objects_v2 client (list_objects_request d) (world s) = (Ok r, w') →
          (handle (ListObjectsHandler client) "list-objects" (Some d) s).1
          ≠ Ok [text_content "Failed to list objects"])
  ∧ (∀ response data w1 w2 w3,
       get_object client (object_request d) (world s) = (Ok response, w1) →
       open_wb client (dict_get d "path") w1 = (Ok (), w2) →
       body_read client response w2 = (Ok data, w3) →
       file_write client (dict_get d "path") data w3 = (Ok (), w') →
       (handle (GetObjectHandler client) "get-object" (Some d) s).1
       ≠ Ok [text_content "Failed to get object"])
  ∧ (∀ f w1, open_rb client (dict_get d "path") (world s) = (Ok f, w1) →
             put_object client (put_request d) f w1 = (Ok (), w') →
             (handle (PutObjectHandler client) "put-object" (Some d) s).1
             ≠ Ok [text_content "Failed to put object"])
  ∧ (delete_object client (object_request d) (world s) = (Ok (), w') →
     (handle (DeleteObjectHandler client) "delete-object" (Some d) s).1
     ≠ Ok [text_content "Failed to delete object"])
  ∧ (∀ obj, head_object client (object_request d) (world s) = (Ok obj, w') →
            (handle (GetObjectMetadataHandler client) "get-object-metadata"
               (Some d) s).1
            ≠ Ok [text_content "Failed to get object metadata"]).
Proof.
  repeat split.
  - intros r H. rewrite (list_buckets_returns _ _ _ _ H). cbn.
    destruct (Buckets r) as [|b [|b' l]]; cbn; intros E; by inversion E.
  - intros H. rewrite (exists_bucket_returns _ _ _ H). cbn. intros [= E].
    do 2 apply string_app_inv_head in E. by inversion E.
  - intros H. rewrite (create_bucket_returns _ _ _ H). cbn.
    intros E; by inversion E.
  - intros H. rewrite (delete_bucket_returns _ _ _ H). cbn.
    intros E; by inversion E.
  - intros [[objs|]] H.
    + rewrite (list_objects_with_Contents client _ _ _ _ H). cbn.
      destruct objs as [|o [|o' l]]; cbn; intros E; by inversion E.
    + py_unfold. unfold list_objects_request, dict_get in H. by rewrite H.
  - intros response data w1 w2 w3 Hg Ho Hr Hw.
    rewrite (get_object_returns client _ _ _ _ _ _ _ _ Hg Ho Hr Hw).
    cbn. intros E; by inversion E.
  - intros f w1 Ho Hp. rewrite (put_object_returns client _ _ _ _ _ Ho Hp).
    cbn. intros E; by inversion E.
  - intros H. rewrite (delete_object_returns _ _ _ H). cbn.
    intros E; by inversion E.
  - intros obj H. rewrite (get_object_metadata_returns _ _ _ _ H). cbn.
    intros E; by inversion E.
Qed.

(** *** What the [except RuntimeError] clauses catch *)

(** X11.  In resource listing and in the three handlers whose clause names
    [RuntimeError], a [RuntimeError] of the storage call becomes the empty
    list, respectively the one block with the failure text, and any other
    exception of the storage call leaves the function unchanged. *)
Theorem storage_failure_of_RuntimeError_handlers (args : option dict)
    (d : dict) (s : state W) (e : exn) (w' : W) :
  (list_buckets client (world s) = (Raise e, w') →
   (list_resources client s).1
   = (if isinstance e RuntimeErrorC then Ok [] else Raise e)
   ∧ (handle (ListBucketsHandler client) "list-buckets" args s).1
     = (if isinstance e RuntimeErrorC
        then Ok [text_content "Failed to list buckets"] else Raise e))
  ∧ (create_bucket client {[ "Bucket" := dict_get d "bucket_name" ]} (world s)
     = (Raise e, w') →
     (handle (CreateBucketHandler client) "create-bucket" (Some d) s).1
     = (if isinstance e RuntimeErrorC
        then Ok [text_content "Failed to create bucket"] else Raise e))
  ∧ (delete_bucket client {[ "Bucket" := dict_get d "bucket_name" ]} (world s)
     = (Raise e, w') →
     (handle (DeleteBucketHandler client) "delete-bucket" (Some d) s).1
     = (if isinstance e RuntimeErrorC
        then Ok [text_content "Failed to delete bucket"] else Raise e)).
Proof.
  split; [|split].
  - intros H. split.
    + by rewrite (list_resources_raises client _ _ _ H).
    + by rewrite (list_buckets_raises client _ _ _ _ H).
  - intros H. by rewrite (create_bucket_raises client _ _ _ _ H).
  - intros H. by rewrite (delete_bucket_raises client _ _ _ _ H).
Qed.

(** X12.  get-object-metadata prints the three fields of the response in one
    block, each field the response lacks as the empty string. *)
Theorem get_object_metadata_block (d : dict) (s : state W)
    (t n m : option value) (w' : W) :
  head_object client (object_request d) (world s)
  = (Ok {| ContentType := t; ContentLength := n; LastModified := m |}, w') →
  (handle (GetObjectMetadataHandler client) "get-object-metadata" (Some d) s).1
  = Ok [text_content
          ("Metadata[content_type=" +:+ from_option py_str "" t
           +:+ ", content_length=" +:+ from_option py_str "" n
           +:+ ",last_modified=" +:+ from_option py_str "" m +:+ "]")].
Proof.
  intros Hc. rewrite (get_object_metadata_returns d s _ w' Hc). cbn.
  by destruct t, n, m.
Qed.

(** *** Listings *)

(** X13.  Resource listing gives one resource per bucket, in the order of
    the listing, as long as the uri [s3://] followed by the bucket name
    passes the validation of [Resource]: the resource holds the validated
    uri, the name [Bucket: ] and the description [Data in bucket: ] followed
    by the bucket name, and the type [text/plain].  At the first bucket
    whose uri does not validate, the listing stops: the validation error is
    raised to the caller (or, were it a [RuntimeError], swallowed into the
    empty list), and no resource is returned. *)
Theorem list_resources_one_per_bucket (s : state W) (r : ListBucketsOutput)
    (w' : W) :
  list_buckets client (world s) = (Ok r, w') →
  (∀ us,
     Forall2 (λ bucket u, any_url client ("s3://" +:+ Name bucket) = Ok u)
       (Buckets r) us →
     ∃ rs,
       (list_resources client s).1 = Ok rs
       ∧ length rs = length (Buckets r)
       ∧ ∀ i bucket u, Buckets r !! i = Some bucket → us !! i = Some u →
           rs !! i
           = Some {| Resource.uri := u;
                     Resource.name := "Bucket: " +:+ Name bucket;
                     Resource.mimeType := "text/plain";
                     Resource.description :=
                       "Data in bucket: " +:+ Name bucket |})
  ∧ (∀ l1 bucket l2 us e,
       Buckets r = l1 ++ bucket :: l2 →
       Forall2 (λ bucket u, any_url client ("s3://" +:+ Name bucket) = Ok u)
         l1 us →
       any_url client ("s3://" +:+ Name bucket) = Raise e →
       (list_resources client s).1
       = if isinstance e RuntimeErrorC then Ok [] else Raise e).
Proof.
  intros Hc. split.
  - intros us Hus. rewrite (list_resources_returns client s r w' us Hc Hus).
    cbn. eexists. split; [reflexivity|]. split.
    + rewrite length_zip_with. apply Forall2_length in Hus. lia.
    + intros i bucket u Hb Hu. rewrite lookup_zip_with, Hb. cbn.
      by rewrite Hu.
  - intros l1 bucket l2 us e Hr Hus He.
    by rewrite (list_resources_invalid_uri client s r w' l1 l2 us bucket e
                  Hc Hr Hus He).
Qed.

(** X14.  list-buckets and list-objects return one block per entry of the
    listing, in its order: [Bucket: ] followed by the name for a bucket, and
    [Object[key=K, version_id=V]] for an object, where a key or a version
    id the entry lacks is printed as [null]. *)
Theorem listing_blocks (args : option dict) (d : dict) (s : state W) (w' : W) :
  (∀ r, list_buckets client (world s) = (Ok r, w') →
        ∃ blocks,
          (handle (ListBucketsHandler client) "list-buckets" args s).1
          = Ok blocks
          ∧ length blocks = length (Buckets r)
          ∧ ∀ i bucket, Buckets r !! i = Some bucket →
              blocks !! i = Some (text_content ("Bucket: " +:+ Name bucket)))
  ∧ (∀ objs,
       list_objects_v2 client (list_objects_request d) (world s)
       = (Ok {| Contents := Some objs |}, w') →
       ∃ blocks,
         (handle (ListObjectsHandler client) "list-objects" (Some d) s).1
         = Ok blocks
         ∧ length blocks = length objs
         ∧ ∀ i key version,
             objs !! i = Some {| Key := key; VersionId := version |} →
             blocks !! i
             = Some (text_content
                       ("Object[key=" +:+ from_option py_str "null" key
                        +:+ ", version_id="
                        +:+ from_option py_str "null" version +:+ "]"))).
Proof.
  split.
  - intros r Hc. rewrite (list_buckets_returns args s r w' Hc). cbn.
    eexists. split; [reflexivity|]. split; [by rewrite length_fmap|].
    intros i bucket Hi. by rewrite list_lookup_fmap, Hi.
  - intros objs Hc. rewrite (list_objects_with_Contents client d s w' objs Hc).
    cbn. eexists. split; [reflexivity|]. split; [by rewrite length_fmap|].
    intros i key version Hi. rewrite list_lookup_fmap, Hi. cbn.
    by destruct key, version.
Qed.

(** *** Keywords of the requests *)

Lemma set_if_not_None_is_Some (k K : string) (v : value) (kw : dict) :
  is_Some (set_if_not_None k v kw !! K) → K = k ∨ is_Some (kw !! K).
Proof.
  rewrite lookup_set_if_not_None.
  destruct (decide (k = K)) as [<-|]; [by left | by right].
Qed.

(** X15.  get-object, delete-object and get-object-metadata send the same
    keywords: [Bucket] and [Key] always, [VersionId] exactly when version_id
    is given and not null, and never any other keyword. *)
Theorem object_handlers_request (d : dict) (s : state W) :
  ∃ kw : dict,
    calls (handle (GetObjectHandler client) "get-object" (Some d) s).2
    = calls s ++ [Call op_get_object kw None]
    ∧ calls (handle (DeleteObjectHandler client) "delete-object" (Some d) s).2
      = calls s ++ [Call op_delete_object kw None]
    ∧ calls (handle (GetObjectMetadataHandler client) "get-object-metadata"
               (Some d) s).2
      = calls s ++ [Call op_head_object kw None]
    ∧ kw !! "Bucket" = Some (dict_get d "bucket_name")
    ∧ kw !! "Key" = Some (dict_get d "key")
    ∧ kw !! "VersionId" = passed d "version_id"
    ∧ ∀ K, is_Some (kw !! K) → K ∈ ["Bucket"; "Key"; "VersionId"].
Proof.
  exists (object_request d).
  split; [apply get_object_handle_calls|].
  split; [apply delete_object_handle_calls|].
  split; [apply get_object_metadata_handle_calls|].
  unfold object_request, object_kwargs.
  split; [by rewrite lookup_set_if_not_None|].
  split; [by rewrite lookup_set_if_not_None|].
  split.
  - rewrite lookup_set_if_not_None. cbn. by rewrite dict_get_optional.
  - intros K HK. apply set_if_not_None_is_Some in HK as [->|HK];
      [set_solver|].
    rewrite lookup_insert in HK. destruct (decide ("Bucket" = K)) as [<-|];
      [set_solver|].
    rewrite lookup_singleton in HK. destruct (decide ("Key" = K)) as [<-|];
      [set_solver|]. by destruct HK.
Qed.

(** X16.  list-objects passes max_keys on as it was given, whatever its type, and
    leaves [MaxKeys] out when max_keys is null (the default 1000 is for an
    omitted max_keys only); it never sends a keyword other than the six of
    the listing. *)
Theorem list_objects_max_keys_and_keywords (d : dict) (s : state W) :
  ∃ kw : dict,
    calls (handle (ListObjectsHandler client) "list-objects" (Some d) s).2
    = calls s ++ [Call op_list_objects_v2 kw None]
    ∧ (∀ v, d !! "max_keys" = Some v →
            kw !! "MaxKeys" = if is_not_None v then Some v else None)
    ∧ ∀ K, is_Some (kw !! K) →
           K ∈ ["Bucket"; "Prefix"; "Delimiter"; "MaxKeys";
                "ContinuationToken"; "StartAfter"].
Proof.
  exists (list_objects_request d).
  split; [apply list_objects_handle_calls|]. split.
  - intros v Hv.
    destruct (list_objects_request_lookup d) as (_ & _ & _ & _ & _ & ->).
    rewrite Hv. unfold passed. rewrite Hv. by destruct v.
  - intros K HK. unfold list_objects_request, list_objects_kwargs in HK.
    repeat (apply set_if_not_None_is_Some in HK as [->|HK]; [set_solver|]).
    rewrite lookup_singleton in HK.
    destruct (decide ("Bucket" = K)) as [<-|]; [set_solver|]. by destruct HK.
Qed.

End MoreProperties.

(** *** Configuration *)

(** X17.  A configuration [load_config] returns is complete: endpoint, access key
    id and access key secret are the non-empty values of the environment,
    and the region is the value of [REGION_NAME], or ["us-east-1"] when that
    variable is unset. *)
Theorem load_config_returns_complete (environ : gmap string string)
    (config : dict) :
  load_config environ = Ok config →
  ∃ endpoint id secret,
    environ !! "ENDPOINT" = Some endpoint ∧ endpoint ≠ ""
    ∧ environ !! "ACCESS_KEY_ID" = Some id ∧ id ≠ ""
    ∧ environ !! "ACCESS_KEY_SECRET" = Some secret ∧ secret ≠ ""
    ∧ config
      = {[ "endpoint" := VStr endpoint; "access_key_id" := VStr id;
           "access_key-secret" := VStr secret;
           "region_name" :=
             VStr (default "us-east-1" (environ !! "REGION_NAME")) ]}.
Proof.
  rewrite load_config_result. unfold required_values, os_getenv. cbn.
  destruct (environ !! "ENDPOINT") as [endpoint|]; [|done].
  destruct (environ !! "ACCESS_KEY_ID") as [id|];
    [|by rewrite andb_false_r].
  destruct (environ !! "ACCESS_KEY_SECRET") as [secret|];
    [|by rewrite !andb_false_r].
  cbn. rewrite andb_true_r.
  destruct (String.eqb endpoint "") eqn:He; [done|].
  destruct (String.eqb id "") eqn:Hi; [done|].
  destruct (String.eqb secret "") eqn:Hs; [done|].
  cbn. intros [= <-]. exists endpoint, id, secret.
  apply String.eqb_neq in He, Hi, Hs.
  repeat split; try done. unfold os_getenv_default.
  by destruct (environ !! "REGION_NAME").
Qed.

(** *** The further properties at concrete inputs *)

Lemma required_arguments_declared_witness :
  ∃ t, descriptor "get-object" = Some t
       ∧ "path" ∈ Tool.prop_name <$> Tool.properties (Tool.inputSchema t).
Proof.
  eexists. split; [reflexivity|].
  apply required_arguments_declared.
  - do 5 apply list_elem_of_further. constructor.
  - do 2 apply list_elem_of_further. constructor.
Defined.

Lemma handle_call_tool_None_raises_witness :
  handle_call_tool KV.client "get-object" None (start stored_world)
  = (Raise (AttributeError "'NoneType' object has no attribute 'get'"),
     start stored_world).
Proof.
  apply (handle_call_tool_None_raises KV.client "get-object").
  - do 5 apply list_elem_of_further. constructor.
  - discriminate.
Defined.

Lemma undeclared_arguments_ignored_witness :
  handle_call_tool KV.client "exists-bucket"
    (Some (<["prefix" := VStr "x"]> (bucket_args "b"))) (start sample_world)
  = handle_call_tool KV.client "exists-bucket" (Some (bucket_args "b"))
      (start sample_world).
Proof.
  apply (undeclared_arguments_ignored KV.client "exists-bucket" "prefix").
  apply (bool_decide_unpack (_ ∉ _)). vm_compute. exact I.
Defined.

Lemma storage_failure_of_ClientError_handlers_witness :
  (handle (ListObjectsHandler KV.client) "list-objects" (Some (bucket_args "b"))
     (start denied_world)).1
  = Ok [text_content "Failed to list objects"]
  ∧ (handle (ListObjectsHandler KV.client) "list-objects"
       (Some (bucket_args "b")) (start offline_world)).1
    = Raise (BotoCoreError "EndpointConnectionError").
Proof.
  split.
  - apply (storage_failure_of_ClientError_handlers KV.client (bucket_args "b")
             (start denied_world) (ClientError "AccessDenied") denied_world).
    reflexivity.
  - apply (storage_failure_of_ClientError_handlers KV.client (bucket_args "b")
             (start offline_world) (BotoCoreError "EndpointConnectionError")
             offline_world).
    reflexivity.
Defined.

Lemma storage_failure_of_RuntimeError_handlers_witness :
  (list_resources KV.client (start offline_world)).1
  = Raise (BotoCoreError "EndpointConnectionError")
  ∧ (handle (ListBucketsHandler KV.client) "list-buckets" None
       (start offline_world)).1
    = Raise (BotoCoreError "EndpointConnectionError").
Proof.
  apply (storage_failure_of_RuntimeError_handlers KV.client None ∅
           (start offline_world) (BotoCoreError "EndpointConnectionError")
           offline_world).
  reflexivity.
Defined.

Lemma success_is_not_failure_text_witness :
  (handle (ExistsBucketHandler KV.client) "exists-bucket"
     (Some (bucket_args "b")) (start sample_world)).1
  ≠ Ok [text_content "Bucket b not exists"].
Proof.
  apply (success_is_not_failure_text KV.client None (bucket_args "b")
           (start sample_world) sample_world).
  reflexivity.
Defined.

(** Resource listing of the store with the bucket [b], and of the store
    whose bucket name has a space. *)
Lemma list_resources_one_per_bucket_witness :
  (∃ rs,
     (list_resources KV.client (start sample_world)).1 = Ok rs
     ∧ length rs = 1%nat
     ∧ rs !! 0%nat
       = Some {| Resource.uri := "s3://b"; Resource.name := "Bucket: b";
                 Resource.mimeType := "text/plain";
                 Resource.description := "Data in bucket: b" |})
  ∧ (list_resources KV.client (start spaced_world)).1
    = Raise (ValueError "ValidationError").
Proof.
  split.
  - destruct (list_resources_one_per_bucket KV.client (start sample_world)
                {| Buckets := [ {| Name := "b" |} ] |} sample_world eq_refl)
      as [H _].
    destruct (H ["s3://b"]) as (rs & Hrs & Hlen & Hat).
    { by repeat constructor. }
    exists rs. split; [exact Hrs|]. split; [exact Hlen|].
    exact (Hat O {| Name := "b" |} "s3://b" eq_refl eq_refl).
  - destruct (list_resources_one_per_bucket KV.client (start spaced_world)
                {| Buckets := [ {| Name := "my bucket" |} ] |} spaced_world
                eq_refl) as [_ H].
    exact (H [] {| Name := "my bucket" |} [] []
             (ValueError "ValidationError") eq_refl (List.Forall2_nil _) eq_refl).
Defined.

(** list-objects on the bucket [b] holding the object [k], which has no
    version id. *)
Lemma listing_blocks_witness :
  ∃ blocks,
    (handle (ListObjectsHandler KV.client) "list-objects"
       (Some (bucket_args "b")) (start stored_world)).1
    = Ok blocks
    ∧ length blocks = 1%nat
    ∧ blocks !! 0%nat
      = Some (text_content "Object[key=k, version_id=null]").
Proof.
  destruct (listing_blocks KV.client None (bucket_args "b") (start stored_world)
              stored_world) as [_ H].
  destruct (H [ {| Key := Some (VStr "k"); VersionId := None |} ] eq_refl)
    as (blocks & Hb & Hlen & Hat).
  exists blocks. split; [exact Hb|]. split; [exact Hlen|].
  exact (Hat O (Some (VStr "k")) None eq_refl).
Defined.

Lemma get_object_metadata_block_witness :
  (handle (GetObjectMetadataHandler KV.client) "get-object-metadata"
     (Some (object_args "b" "k" "/tmp/out")) (start stored_world)).1
  = Ok [text_content
          "Metadata[content_type=binary/octet-stream, content_length=3,last_modified=]"].
Proof.
  apply (get_object_metadata_block KV.client (object_args "b" "k" "/tmp/out")
           (start stored_world) (Some (VStr "binary/octet-stream"))
           (Some (VInt 3)) None stored_world).
  reflexivity.
Defined.

Lemma load_config_returns_complete_witness :
  ∃ endpoint id secret,
    complete_environ !! "ENDPOINT" = Some endpoint ∧ endpoint ≠ ""
    ∧ complete_environ !! "ACCESS_KEY_ID" = Some id ∧ id ≠ ""
    ∧ complete_environ !! "ACCESS_KEY_SECRET" = Some secret ∧ secret ≠ ""
    ∧ ({[ "endpoint" := VStr "http://localhost:9000";
          "access_key_id" := VStr "id"; "access_key-secret" := VStr "secret";
          "region_name" := VStr "us-east-1" ]} : dict)
      = {[ "endpoint" := VStr endpoint; "access_key_id" := VStr id;
           "access_key-secret" := VStr secret;
           "region_name" :=
             VStr (default "us-east-1" (complete_environ !! "REGION_NAME")) ]}.
Proof.
  apply (load_config_returns_complete complete_environ). reflexivity.
Defined.
